(** * styled-str: the [Styled] string class

    A shallow embedding of [styled_str/styled.py].  [Styled] subclasses
    Python's [str]; an instance carries a [data] attribute (the display
    text) and a [_codes] attribute (a Python list of ANSI parameter
    codes).

    - Python text is a [string]; the built-in [str] methods the class
      calls are given for ASCII text.
    - A code list is a mutable object that several instances may
      reference: lists live in a heap, an instance holds the location of
      its list, and the methods run in a state and exception monad over
      the heap.
    - The instance attributes are fields of a record, absent until
      assigned: an instance made by [__new__] alone has none.  [data] holds
      plain text or, after construction from an instance, that instance.
    - Arguments range over [None], booleans, integers, text and, for the
      color and style arguments, tuples and lists of these.
    - [str.__format__] and [hash] of plain text are parameters of the
      embedding. *)

From Stdlib Require Import ZArith String Ascii List DecimalString Bool Lia.
From Stdlib Require Import DecimalPos DecimalZ.
From stdpp Require Import base option gmap list.

Local Open Scope string_scope.
Local Open Scope Z_scope.

(** ** Built-in [str] operations *)

Module PyStr.

(** [str.isspace] on one ASCII character: TAB, LF, VT, FF, CR, the four
    separators FS..US, and the blank. *)
Definition is_space (c : ascii) : bool :=
  let n := nat_of_ascii c in
  ((9 <=? n)%nat && (n <=? 13)%nat) || ((28 <=? n)%nat && (n <=? 32)%nat).

Fixpoint mem (c : ascii) (chars : string) : bool :=
  match chars with
  | EmptyString => false
  | String d rest => Ascii.eqb c d || mem c rest
  end.

(** The set of characters removed by [strip(chars)]: whitespace when
    [chars] is [None]. *)
Definition stripped (chars : option string) (c : ascii) : bool :=
  match chars with
  | None => is_space c
  | Some cs => mem c cs
  end.

Fixpoint lstrip (chars : option string) (s : string) : string :=
  match s with
  | EmptyString => EmptyString
  | String c rest => if stripped chars c then lstrip chars rest else s
  end.

Fixpoint rstrip (chars : option string) (s : string) : string :=
  match s with
  | EmptyString => EmptyString
  | String c rest =>
      match rstrip chars rest with
      | EmptyString => if stripped chars c then EmptyString else String c EmptyString
      | r => String c r
      end
  end.

Definition strip (chars : option string) (s : string) : string :=
  rstrip chars (lstrip chars s).

Definition lower_char (c : ascii) : ascii :=
  let n := nat_of_ascii c in
  if (65 <=? n)%nat && (n <=? 90)%nat then ascii_of_nat (n + 32) else c.

Definition upper_char (c : ascii) : ascii :=
  let n := nat_of_ascii c in
  if (97 <=? n)%nat && (n <=? 122)%nat then ascii_of_nat (n - 32) else c.

Fixpoint map_chars (f : ascii -> ascii) (s : string) : string :=
  match s with
  | EmptyString => EmptyString
  | String c rest => String (f c) (map_chars f rest)
  end.

Definition lower : string -> string := map_chars lower_char.
Definition upper : string -> string := map_chars upper_char.

(** [sep.join(parts)] *)
Fixpoint join (sep : string) (parts : list string) : string :=
  match parts with
  | [] => ""
  | [p] => p
  | p :: rest => p ++ sep ++ join sep rest
  end.

Fixpoint repeat_nat (s : string) (n : nat) : string :=
  match n with
  | O => ""
  | S k => s ++ repeat_nat s k
  end.

(** [s * n]: the empty text for [n <= 0]. *)
Definition repeat (s : string) (n : Z) : string := repeat_nat s (Z.to_nat n).

(** [s.ljust(width, fill)] *)
Definition ljust (s : string) (width : Z) (fill : ascii) : string :=
  s ++ repeat_nat (String fill "") (Z.to_nat (width - Z.of_nat (String.length s))).

(** [s[i]] for an integer [i]: negative indices count from the end;
    [None] stands for the [IndexError] of an index out of range. *)
Definition item (s : string) (i : Z) : option string :=
  let len := Z.of_nat (String.length s) in
  let j := if i <? 0 then i + len else i in
  if (0 <=? j) && (j <? len)
  then option_map (fun c => String c "") (String.get (Z.to_nat j) s)
  else None.

(** [str(n)] for an integer. *)
Definition of_int (n : Z) : string := NilZero.string_of_int (Z.to_int n).

(** The four order operators on plain text: lexicographic by code point. *)
Inductive cmpop := OpLt | OpLe | OpGt | OpGe.

Definition compare_with (op : cmpop) (s t : string) : bool :=
  match op with
  | OpLt => String.ltb s t
  | OpLe => String.leb s t
  | OpGt => String.ltb t s
  | OpGe => String.leb t s
  end.

(** The reflected operator Python tries on the right operand. *)
Definition reflected (op : cmpop) : cmpop :=
  match op with
  | OpLt => OpGt
  | OpLe => OpGe
  | OpGt => OpLt
  | OpGe => OpLe
  end.

End PyStr.

(** ** Exceptions and fallible results *)

Inductive exn :=
| TypeError | ValueError | NameError | AttributeError | IndexError
| SystemError. (* a list location the heap does not hold: never raised
                  from a heap that holds the lists of its instances *)

Inductive result (A : Type) : Type :=
| Ok (a : A)
| Raise (e : exn).
Arguments Ok {A} a.
Arguments Raise {A} e.

Definition rbind {A B} (r : result A) (k : A -> result B) : result B :=
  match r with
  | Ok a => k a
  | Raise e => Raise e
  end.

(** ** Python values *)

(** The values that are neither containers nor [Styled] instances. *)
Inductive atom :=
| ANone
| ABool (b : bool)
| AInt (n : Z)
| AStr (s : string).

(** What the [fg], [bg] and [style] arguments range over. *)
Inductive spec :=
| Atom (a : atom)
| Tuple (items : list atom)
| PyList (items : list atom).

Definition loc := nat.

(** A [Styled] instance: the text value held by the [str] base object and
    the two instance attributes, absent until assigned.  [data] is bound
    to plain text or to another instance; [_codes] to a list object. *)
Inductive obj :=
| Obj (base : string) (data : option content) (codes : option loc)
with content :=
| Text (s : string)
| Nested (o : obj).

Inductive pyval :=
| VAtom (a : atom)
| VStyled (o : obj).

Definition base_of (o : obj) : string := let 'Obj b _ _ := o in b.
Definition data_of (o : obj) : option content := let 'Obj _ d _ := o in d.
Definition codes_of (o : obj) : option loc := let 'Obj _ _ c := o in c.

Definition set_data (o : obj) (d : content) : obj :=
  let 'Obj b _ c := o in Obj b (Some d) c.
Definition set_codes (o : obj) (l : loc) : obj :=
  let 'Obj b d _ := o in Obj b d (Some l).

(** [str(a)], which is also [format(a, '')], on an atom. *)
Definition py_str (a : atom) : string :=
  match a with
  | ANone => "None"
  | ABool true => "True"
  | ABool false => "False"
  | AInt n => PyStr.of_int n
  | AStr s => s
  end.

Definition truthy (a : atom) : bool :=
  match a with
  | ANone => false
  | ABool b => b
  | AInt n => negb (n =? 0)
  | AStr s => negb (String.eqb s "")
  end.

Definition spec_truthy (sp : spec) : bool :=
  match sp with
  | Atom a => truthy a
  | Tuple items | PyList items => match items with [] => false | _ => true end
  end.

(** [x in names] and [names.index(x)] for a tuple of texts. *)
Fixpoint index_str (s : string) (names : list string) : option nat :=
  match names with
  | [] => None
  | n :: rest => if String.eqb n s then Some O else option_map S (index_str s rest)
  end.

Definition index_of (a : atom) (names : list string) : option nat :=
  match a with
  | AStr s => index_str s names
  | _ => None
  end.

(** ** The heap of list objects and the monad of methods *)

Abbreviation heap := (gmap loc (list atom)).

Definition Py (A : Type) : Type := heap -> result (A * heap).

Definition ret {A} (a : A) : Py A := fun h => Ok (a, h).
Definition raise {A} (e : exn) : Py A := fun _ => Raise e.
Definition bind {A B} (m : Py A) (k : A -> Py B) : Py B :=
  fun h => match m h with
           | Ok (a, h') => k a h'
           | Raise e => Raise e
           end.
Definition lift {A} (r : result A) : Py A :=
  fun h => match r with Ok a => Ok (a, h) | Raise e => Raise e end.

Notation "'let*' x ':=' m 'in' k" := (bind m (fun x => k))
  (at level 10, x name, m at level 100, k at level 200).
Notation "'let?' x ':=' m 'in' k" := (rbind m (fun x => k))
  (at level 10, x name, m at level 100, k at level 200).

(** A new list object. *)
Definition alloc (items : list atom) : Py loc :=
  fun h => let l := fresh (dom h) in Ok (l, <[l := items]> h).

Definition read (l : loc) : Py (list atom) :=
  fun h => match h !! l with
           | Some items => Ok (items, h)
           | None => Raise SystemError
           end.

(** [lst.append(x)] *)
Definition append (l : loc) (x : atom) : Py unit :=
  fun h => match h !! l with
           | Some items => Ok (tt, <[l := (items ++ [x])%list]> h)
           | None => Raise SystemError
           end.

(** Attribute reads: [AttributeError] when the attribute was never set. *)
Definition getattr {A} (a : option A) : result A :=
  match a with
  | Some x => Ok x
  | None => Raise AttributeError
  end.

(** ** Class attributes *)

Definition BASE_FG : Z := 30.
Definition BASE_BG : Z := 40.
Definition BASE_BRIGHT_INC : Z := 60.

Definition COLORS : list string :=
  ["black"; "red"; "green"; "yellow"; "blue"; "magenta"; "cyan"; "white"].

Definition STYLES : list string :=
  ["none"; "bold"; "faint"; "italic"; "underlined"; "blink"; "blink2";
   "negative"; "concealed"; "crossed"].

(** The escape character, code point 0x1B. *)
Definition ESC : string := String (ascii_of_nat 27) "".

(** [TEMPLATE = "\x1b[{}m{}\x1b[0m"] *)
Definition TEMPLATE : string := ESC ++ "[{}m{}" ++ ESC ++ "[0m".

(** [tpl.format] on positional arguments, for a template whose
    replacement fields are all the automatic field [{}], the arguments
    already formatted with the empty format specification: each field
    takes the next argument, arguments left over are ignored, a field
    without an argument raises [IndexError]; doubled braces are literal
    braces.  Numbered and named fields do not occur in [TEMPLATE] and are
    not interpreted. *)
Fixpoint format_fields (tpl : string) (args : list string) : result string :=
  match tpl with
  | EmptyString => Ok ""
  | String c EmptyString =>
      if Ascii.eqb c "{"%char || Ascii.eqb c "}"%char then Raise ValueError
      else Ok (String c "")
  | String c (String d rest as tail) =>
      if Ascii.eqb c "{"%char && Ascii.eqb d "}"%char then
        match args with
        | [] => Raise IndexError
        | a :: args' => let? r := format_fields rest args' in Ok (a ++ r)
        end
      else if Ascii.eqb c d && (Ascii.eqb c "{"%char || Ascii.eqb c "}"%char) then
        let? r := format_fields rest args in Ok (String c r)
      else if Ascii.eqb c "{"%char || Ascii.eqb c "}"%char then Raise ValueError
      else let? r := format_fields tail args in Ok (String c r)
  end.

(** ** Static methods *)

(** [';'.join(str(arg) for arg in args)] *)
Definition _join (args : list atom) : string :=
  PyStr.join ";" (map py_str args).

(** [isinstance(a, int)], with the integer value: [bool] is a subclass of
    [int]. *)
Definition as_int (a : atom) : option Z :=
  match a with
  | AInt n => Some n
  | ABool b => Some (if b then 1 else 0)
  | _ => None
  end.

(** [_color_code(spec, base)].  The last branch calls a global [_join]
    that the module does not define; a specification matching no branch
    falls off the end of the function, which returns [None]. *)
Definition _color_code (sp : spec) (base : Z) : result atom :=
  let sp := match sp with
            | Atom (AStr s) => Atom (AStr (PyStr.lower (PyStr.strip None s)))
            | _ => sp
            end in
  match sp with
  | Atom a =>
      if match a with AStr s => String.eqb s "default" | _ => false end
      then Ok (AStr (_join [AInt (base + 9)]))
      else match index_of a COLORS with
           | Some i => Ok (AStr (_join [AInt (base + Z.of_nat i)]))
           | None =>
               match as_int a with
               | Some n =>
                   if (0 <=? n) && (n <=? 255)
                   then Ok (AStr (_join [AInt (base + 8); AInt 5; a]))
                   else Ok ANone
               | None => Ok ANone
               end
           end
  | Tuple _ | PyList _ => Raise NameError
  end.

(** ** Construction: [__init__] *)

(** The loop [for part in style] appending to the list at [l]. *)
Fixpoint add_styles (l : loc) (parts : list atom) : Py unit :=
  match parts with
  | [] => ret tt
  | part :: rest =>
      match index_of part STYLES with
      | Some i => let* _ := append l (AInt (Z.of_nat i)) in add_styles l rest
      | None => raise ValueError
      end
  end.

Definition add_color (l : loc) (sp : spec) (base : Z) (bright : bool) : Py unit :=
  if spec_truthy sp then
    let* c := lift (_color_code sp (base + (if bright then BASE_BRIGHT_INC else 0))) in
    append l c
  else ret tt.

(** [__init__].  [isinstance(data, str)] holds for an instance of [Styled]
    too, so the first branch binds [self.data] to the instance itself and
    the branch [elif isinstance(data, Styled)] is never taken.  [_codes] is
    bound to a new empty list, which the color and style arguments then
    fill in place. *)
Definition __init__ (self : obj) (data : pyval)
    (fg : spec) (brightfg : bool) (bg : spec) (brightbg : bool) (style : spec)
  : Py obj :=
  let self := set_data self
                (match data with
                 | VAtom (AStr s) => Text s
                 | VStyled o => Nested o
                 | VAtom a => Text (py_str a)
                 end) in
  let* l := alloc [] in
  let self := set_codes self l in
  let* _ := add_color l fg BASE_FG brightfg in
  let* _ := add_color l bg BASE_BG brightbg in
  let* _ :=
    if spec_truthy style then
      match style with
      | Atom (AStr s) => add_styles l [AStr s]
      | Tuple parts | PyList parts => add_styles l parts
      | Atom _ => raise TypeError
      end
    else ret tt in
  ret self.

(** ** The built-ins the class delegates to

    [str.__format__] and [hash] on plain text belong to the interpreter:
    the class is embedded over any choice of them. *)

Section Styled.

Variable str_format : string -> string -> result string.
Variable str_hash : string -> Z.

(** ** Rendering *)

(** [__format__] passes the codes to the template as separate positional
    arguments, followed by the formatted content. *)
Fixpoint __format__ (self : obj) (format_string : string) : Py string :=
  match self with
  | Obj _ d c =>
      let* l := lift (getattr c) in
      let* cs := read l in
      let* inner :=
        match d with
        | None => raise AttributeError
        | Some (Text s) => lift (str_format s format_string)
        | Some (Nested o) => __format__ o format_string
        end in
      lift (format_fields TEMPLATE (map py_str cs ++ [inner])%list)
  end.

(** [__str__]: the second field formats [self.data] with the empty
    specification, which for an instance of [Styled] is its [__format__]. *)
Definition __str__ (self : obj) : Py string :=
  let* l := lift (getattr (codes_of self)) in
  let* cs := read l in
  let* inner :=
    match data_of self with
    | None => raise AttributeError
    | Some (Text s) => ret s
    | Some (Nested o) => __format__ o ""
    end in
  lift (format_fields TEMPLATE [_join cs; inner]).

(** [str(v)] *)
Definition str_of (v : pyval) : Py string :=
  match v with
  | VAtom a => ret (py_str a)
  | VStyled o => __str__ o
  end.

(** ** Instance creation *)

(** [__new__(cls, data, codes=None)]: the [str] base object is built from
    [str(data)]; [_codes] is bound to a copy of [codes] only when [codes]
    is a non-empty list; [data] is not bound. *)
Definition __new__ (data : pyval) (codes : option loc) : Py obj :=
  let* base := str_of data in
  let new_styled := Obj base None None in
  match codes with
  | None => ret new_styled
  | Some l =>
      let* items := read l in
      match items with
      | [] => ret new_styled
      | _ => let* l' := alloc items in ret (set_codes new_styled l')
      end
  end.

(** The call [Styled(data, fg=.., brightfg=.., bg=.., brightbg=.., style=..)]:
    [__new__] receives [data] and the keywords, then [__init__] runs on
    the new instance. *)
Definition Styled_call (data : pyval)
    (fg : spec) (brightfg : bool) (bg : spec) (brightbg : bool) (style : spec)
  : Py obj :=
  let* self := __new__ data None in
  __init__ self data fg brightfg bg brightbg style.

(** [self.__class__(x)] with every keyword at its default. *)
Definition Styled_plain (data : pyval) : Py obj :=
  Styled_call data (Atom ANone) false (Atom ANone) false (Atom ANone).

(** ** Equality, hash and order *)

(** [c == t] for [c] the value of a [data] attribute and [t] plain text. *)
Fixpoint eq_text (c : content) (t : string) : result bool :=
  match c with
  | Text s => Ok (String.eqb s t)
  | Nested (Obj _ d _) =>
      match d with
      | None => Raise AttributeError
      | Some c' => eq_text c' t
      end
  end.

(** [a == b] for two values of [data] attributes.  With plain text on the
    left and an instance on the right, Python calls the [__eq__] of the
    instance, whose class is a subclass of [str]. *)
Fixpoint eq_content (a b : content) : result bool :=
  match a with
  | Text s =>
      match b with
      | Text t => Ok (String.eqb s t)
      | Nested (Obj _ d _) => let? c := getattr d in eq_text c s
      end
  | Nested (Obj _ da _) =>
      match b with
      | Text t =>
          match da with
          | None => Raise AttributeError
          | Some ca => eq_text ca t
          end
      | Nested (Obj _ db _) =>
          match da with
          | None => Raise AttributeError
          | Some ca => let? cb := getattr db in eq_content ca cb
          end
      end
  end.

Definition __eq__ (self : obj) (other : pyval) : result bool :=
  match other with
  | VStyled o =>
      let? a := getattr (data_of self) in
      let? b := getattr (data_of o) in
      eq_content a b
  | VAtom (AStr t) =>
      let? a := getattr (data_of self) in
      eq_text a t
  | VAtom _ => Ok false
  end.

(** [hash(c)] for the value of a [data] attribute. *)
Fixpoint hash_content (c : content) : result Z :=
  match c with
  | Text s => Ok (str_hash s)
  | Nested (Obj _ d _) =>
      match d with
      | None => Raise AttributeError
      | Some c' => hash_content c'
      end
  end.

Definition __hash__ (self : obj) : result Z :=
  let? c := getattr (data_of self) in hash_content c.

(** [c op t] for [c] the value of a [data] attribute and [t] plain text:
    an instance on the left takes the last branch of its method. *)
Fixpoint cmp_text (op : PyStr.cmpop) (c : content) (t : string) : result bool :=
  match c with
  | Text s => Ok (PyStr.compare_with op s t)
  | Nested (Obj _ d _) =>
      match d with
      | None => Raise AttributeError
      | Some c' => cmp_text op c' t
      end
  end.

(** [a op b] for two values of [data] attributes.  Between two instances
    only [__lt__] reads both attributes: the other three methods spell
    [self,data], a tuple whose second component starts with the
    undefined global [data]. *)
Fixpoint cmp_content (op : PyStr.cmpop) (a b : content) : result bool :=
  match a with
  | Text s =>
      match b with
      | Text t => Ok (PyStr.compare_with op s t)
      | Nested (Obj _ d _) =>
          let? c := getattr d in cmp_text (PyStr.reflected op) c s
      end
  | Nested (Obj _ da _) =>
      match b with
      | Text t =>
          match da with
          | None => Raise AttributeError
          | Some ca => cmp_text op ca t
          end
      | Nested (Obj _ db _) =>
          match op with
          | PyStr.OpLt =>
              match da with
              | None => Raise AttributeError
              | Some ca => let? cb := getattr db in cmp_content PyStr.OpLt ca cb
              end
          | _ => Raise NameError
          end
      end
  end.

Definition __lt__ (self : obj) (other : pyval) : result bool :=
  match other with
  | VStyled o =>
      let? a := getattr (data_of self) in
      let? b := getattr (data_of o) in
      cmp_content PyStr.OpLt a b
  | VAtom (AStr t) =>
      let? a := getattr (data_of self) in cmp_text PyStr.OpLt a t
  | VAtom _ => Raise TypeError
  end.

Definition __le__ (self : obj) (other : pyval) : result bool :=
  match other with
  | VStyled o => Raise NameError
  | VAtom (AStr t) =>
      let? a := getattr (data_of self) in cmp_text PyStr.OpLe a t
  | VAtom _ => Raise TypeError
  end.

Definition __gt__ (self : obj) (other : pyval) : result bool :=
  match other with
  | VStyled o => Raise NameError
  | VAtom (AStr t) =>
      let? a := getattr (data_of self) in cmp_text PyStr.OpGt a t
  | VAtom _ => Raise TypeError
  end.

Definition __ge__ (self : obj) (other : pyval) : result bool :=
  match other with
  | VStyled o => Raise NameError
  | VAtom (AStr t) =>
      let? a := getattr (data_of self) in cmp_text PyStr.OpGe a t
  | VAtom _ => Raise TypeError
  end.

(** ** Concatenation *)

Definition is_text (v : pyval) : bool :=
  match v with
  | VAtom (AStr _) | VStyled _ => true
  | VAtom _ => false
  end.

Definition __add__ (self : obj) (other : pyval) : Py string :=
  if is_text other then
    let* a := __str__ self in
    let* b := str_of other in
    ret (a ++ b)
  else raise TypeError.

Definition __radd__ (self : obj) (other : pyval) : Py string :=
  if is_text other then
    let* a := str_of other in
    let* b := __str__ self in
    ret (a ++ b)
  else raise TypeError.

(** ** Methods returning a new instance *)

Definition as_value (c : content) : pyval :=
  match c with
  | Text s => VAtom (AStr s)
  | Nested o => VStyled o
  end.

(** [__mul__(n)] for an integer [n]; [self.data * n] is the method itself
    when [self.data] is an instance. *)
Fixpoint __mul__ (self : obj) (n : Z) : Py obj :=
  match self with
  | Obj _ d c =>
      let* product :=
        match d with
        | None => raise AttributeError
        | Some (Text s) => ret (VAtom (AStr (PyStr.repeat s n)))
        | Some (Nested o) => let* r := __mul__ o n in ret (VStyled r)
        end in
      let* new_styled := Styled_plain product in
      let* l := lift (getattr c) in
      ret (set_codes new_styled l)
  end.

Fixpoint upper (self : obj) : Py obj :=
  match self with
  | Obj _ d c =>
      let* up :=
        match d with
        | None => raise AttributeError
        | Some (Text s) => ret (VAtom (AStr (PyStr.upper s)))
        | Some (Nested o) => let* r := upper o in ret (VStyled r)
        end in
      let* new_styled := Styled_plain up in
      let* l := lift (getattr c) in
      ret (set_codes new_styled l)
  end.

(** [strip(chars=None)] with [chars] absent or plain text. *)
Fixpoint strip (self : obj) (chars : option string) : Py obj :=
  match self with
  | Obj _ d c =>
      let* stripped :=
        match d with
        | None => raise AttributeError
        | Some (Text s) => ret (VAtom (AStr (PyStr.strip chars s)))
        | Some (Nested o) => let* r := strip o chars in ret (VStyled r)
        end in
      let* new_styled := Styled_plain stripped in
      let* l := lift (getattr c) in
      ret (set_codes new_styled l)
  end.

(** [ljust(width)] and [ljust(width, fillchar)] with a one-character
    [fillchar]. *)
Fixpoint ljust (self : obj) (width : Z) (fillchar : option ascii) : Py obj :=
  match self with
  | Obj _ d c =>
      let* padded :=
        match d with
        | None => raise AttributeError
        | Some (Text s) =>
            ret (VAtom (AStr (PyStr.ljust s width (default " "%char fillchar))))
        | Some (Nested o) => let* r := ljust o width fillchar in ret (VStyled r)
        end in
      let* new_styled := Styled_plain padded in
      let* l := lift (getattr c) in
      ret (set_codes new_styled l)
  end.

(** [__getitem__(key)] for an integer [key]; the new instance gets the
    slice copy [self._codes[:]]. *)
Fixpoint __getitem__ (self : obj) (key : Z) : Py obj :=
  match self with
  | Obj _ d c =>
      let* it :=
        match d with
        | None => raise AttributeError
        | Some (Text s) =>
            match PyStr.item s key with
            | Some ch => ret (VAtom (AStr ch))
            | None => raise IndexError
            end
        | Some (Nested o) => let* r := __getitem__ o key in ret (VStyled r)
        end in
      let* new_styled := Styled_plain it in
      let* l := lift (getattr c) in
      let* items := read l in
      let* l' := alloc items in
      ret (set_codes new_styled l')
  end.

(** [copy(new_data=None)] with [new_data] absent or plain text. *)
Definition copy (self : obj) (new_data : option string) : Py obj :=
  let* d :=
    match new_data with
    | Some s =>
        if truthy (AStr s) then ret (VAtom (AStr s))
        else lift (let? c := getattr (data_of self) in Ok (as_value c))
    | None => lift (let? c := getattr (data_of self) in Ok (as_value c))
    end in
  let* new_styled := Styled_plain d in
  let* l := lift (getattr (codes_of self)) in
  let* items := read l in
  let* l' := alloc items in
  ret (set_codes new_styled l').

(** ** Pickling *)

(** What [__getnewargs__] returns: the two attribute values themselves. *)
Definition __getnewargs__ (self : obj) : result (content * loc) :=
  let? d := getattr (data_of self) in
  let? l := getattr (codes_of self) in
  Ok (d, l).

(** The pickle of an instance (protocol 2 and later): [object.__reduce_ex__]
    yields the class, the arguments of [__getnewargs__] and the instance
    dictionary as state.  The dictionary holds the same two objects as the
    arguments; the pickler writes each once and refers back to it.  So the
    stream carries the content (plain text, or the pickle of the nested
    instance) and the items of the code list. *)
Inductive pickled :=
| Pickled (data : pcontent) (codes : list atom)
with pcontent :=
| PText (s : string)
| PNested (p : pickled).

Fixpoint dumps (v : obj) : Py pickled :=
  match v with
  | Obj _ d c =>
      match d with
      | None => raise AttributeError
      | Some d' =>
          let* l := lift (getattr c) in
          let* pd :=
            match d' with
            | Text s => ret (PText s)
            | Nested o => let* p := dumps o in ret (PNested p)
            end in
          let* items := read l in
          ret (Pickled pd items)
      end
  end.

(** Unpickling: the arguments are rebuilt (the code list as a new list
    object), [cls.__new__(cls, data, codes)] makes the instance, and the
    state is stored into its dictionary: [data] and [_codes] are bound to
    the rebuilt argument objects.  [__init__] does not run. *)
Fixpoint loads (p : pickled) : Py obj :=
  match p with
  | Pickled pd items =>
      let* d :=
        match pd with
        | PText s => ret (Text s)
        | PNested q => let* o := loads q in ret (Nested o)
        end in
      let* l := alloc items in
      let* inst := __new__ (as_value d) (Some l) in
      ret (set_codes (set_data inst d) l)
  end.

(** The call [Styled(data, codes)] with a list object as second positional
    argument: [__new__] takes the list as [codes], [__init__] as [fg]. *)
Definition Styled_from_pair (data : pyval) (l : loc) : Py obj :=
  let* self := __new__ data (Some l) in
  let* items := read l in
  __init__ self data (PyList items) false (Atom ANone) false (Atom ANone).

End Styled.

(** ** An instance of the built-ins, for running the class *)

Module Sample.

Definition is_digit (c : ascii) : bool :=
  let n := nat_of_ascii c in (48 <=? n)%nat && (n <=? 57)%nat.

Definition is_align (c : ascii) : bool :=
  Ascii.eqb c "<" || Ascii.eqb c ">" || Ascii.eqb c "^".

(** Leading decimal digits of [s] and the rest of [s]. *)
Fixpoint number (acc : option nat) (s : string) : option nat * string :=
  match s with
  | String c rest =>
      if is_digit c
      then number (Some (10 * default O acc + (nat_of_ascii c - 48))%nat) rest
      else (acc, s)
  | EmptyString => (acc, s)
  end.

Fixpoint take (n : nat) (s : string) : string :=
  match n, s with
  | S k, String c rest => String c (take k rest)
  | _, _ => ""
  end.

Definition pad (fill align : ascii) (width : nat) (s : string) : string :=
  let gap := (width - String.length s)%nat in
  let fills n := PyStr.repeat_nat (String fill "") n in
  if Ascii.eqb align ">" then fills gap ++ s
  else if Ascii.eqb align "^"
       then fills (gap / 2)%nat ++ s ++ fills (gap - gap / 2)%nat
       else s ++ fills gap.

(** [s.__format__(fs)] for the specifications
    [[[fill]align][width][.precision][s]] without the zero flag; any
    other specification is answered with [ValueError]. *)
Definition format (s fs : string) : result string :=
  let '(fill, align, fs1) :=
    match fs with
    | String f (String a rest) =>
        if is_align a then (f, a, rest)
        else if is_align f then (" "%char, f, String a rest)
             else (" "%char, "<"%char, fs)
    | String a rest =>
        if is_align a then (" "%char, a, rest) else (" "%char, "<"%char, fs)
    | EmptyString => (" "%char, "<"%char, fs)
    end in
  let '(width, fs2) := number None fs1 in
  let zero_flag := match fs1 with String "0" _ => true | _ => false end in
  let '(precision, fs3) :=
    match fs2 with
    | String "." rest =>
        match number None rest with
        | (Some p, rest') => (Some (Some p), rest')
        | (None, rest') => (None, rest')
        end
    | _ => (Some None, fs2)
    end in
  match precision with
  | None => Raise ValueError
  | Some prec =>
      if negb zero_flag && (String.eqb fs3 "" || String.eqb fs3 "s")
      then Ok (pad fill align (default O width)
                 (match prec with Some p => take p s | None => s end))
      else Raise ValueError
  end.

(** A polynomial hash of the code points. *)
Fixpoint hash (s : string) : Z :=
  match s with
  | EmptyString => 7
  | String c rest => (Z.of_nat (nat_of_ascii c) + 31 * hash rest) mod 2 ^ 61
  end.

End Sample.

(** ** The code list of a construction, as a value

    [codes] = the foreground code if requested, then the background code
    if requested, then the style codes in the order given: the list the
    constructor fills in place, written as a function of the arguments. *)

Definition color_codes (sp : spec) (base : Z) (bright : bool) : result (list atom) :=
  if spec_truthy sp then
    let? c := _color_code sp (base + (if bright then BASE_BRIGHT_INC else 0)) in
    Ok [c]
  else Ok [].

Fixpoint style_codes (parts : list atom) : result (list atom) :=
  match parts with
  | [] => Ok []
  | part :: rest =>
      match index_of part STYLES with
      | Some i => let? cs := style_codes rest in Ok (AInt (Z.of_nat i) :: cs)
      | None => Raise ValueError
      end
  end.

Definition resolved_codes
    (fg : spec) (brightfg : bool) (bg : spec) (brightbg : bool) (style : spec)
  : result (list atom) :=
  let? f := color_codes fg BASE_FG brightfg in
  let? b := color_codes bg BASE_BG brightbg in
  let? s :=
    if spec_truthy style then
      match style with
      | Atom (AStr s) => style_codes [AStr s]
      | Tuple parts | PyList parts => style_codes parts
      | Atom _ => Raise TypeError
      end
    else Ok [] in
  Ok (f ++ b ++ s)%list.

(** The content [__init__] binds to [self.data]. *)
Definition content_for (data : pyval) : content :=
  match data with
  | VAtom (AStr s) => Text s
  | VStyled o => Nested o
  | VAtom a => Text (py_str a)
  end.

(** The parameter text of the escape sequence, written out: the first code,
    then each further code behind a semicolon. *)
Definition semicolon_separated (codes : list atom) : string :=
  match codes with
  | [] => ""
  | c :: rest => py_str c ++ fold_right (fun x acc => ";" ++ py_str x ++ acc) "" rest
  end.


(** ** Values for running the class *)

Module Demo.

Definition none : spec := Atom ANone.
Definition text (s : string) : pyval := VAtom (AStr s).
Definition named (s : string) : spec := Atom (AStr s).

(** [Styled('hi', fg='red')] built in the empty heap. *)
Definition red_hi : obj := Obj "hi" (Some (Text "hi")) (Some 0%nat).
Definition red_heap : heap := {[ 0%nat := [AStr "31"] ]}.

(** [Styled('hi', fg='red', bg='blue')] *)
Definition red_on_blue_heap : heap := {[ 0%nat := [AStr "31"; AStr "44"] ]}.

(** [Styled('hi')] *)
Definition plain_heap : heap := {[ 0%nat := [] ]}.

(** [Styled('hi', bg=196, style='bold')] *)
Definition palette_heap : heap := {[ 0%nat := [AStr "48;5;196"; AInt 1] ]}.

End Demo.



Module Runs.

Import Demo.

(** [Styled('not a string', fg='magenta')] built in the empty heap, then
    [Styled('not a string', bg='black')] built next to it. *)
Definition magenta : obj :=
  Obj "not a string" (Some (Text "not a string")) (Some 0%nat).
Definition magenta_heap : heap := {[ 0%nat := [AStr "35"] ]}.
Definition on_black : obj :=
  Obj "not a string" (Some (Text "not a string")) (Some 1%nat).
Definition on_black_heap : heap := <[ 1%nat := [AStr "40"] ]> magenta_heap.

(** [Styled('hi', fg=300)] *)
Definition none_code_heap : heap := {[ 0%nat := [ANone] ]}.

(** [Styled(Styled('hi', fg='red'))], built in the heap of the inner
    value. *)
Definition wrapped : obj :=
  Obj (ESC ++ "[31mhi" ++ ESC ++ "[0m") (Some (Nested red_hi)) (Some 1%nat).
Definition wrapped_heap : heap := <[ 1%nat := [] ]> red_heap.

(** [Styled('hi', fg='red').upper()] *)
Definition upper_hi : obj := Obj "HI" (Some (Text "HI")) (Some 0%nat).

(** [Styled('a', fg='red')] and [Styled('b')], each built in the empty
    heap. *)
Definition red_a : obj := Obj "a" (Some (Text "a")) (Some 0%nat).
Definition plain_b : obj := Obj "b" (Some (Text "b")) (Some 0%nat).

End Runs.

Module Pickles.

(** The value of the pickle test of the repository:
    [Styled('pickle me!', fg='cyan', bg='white')]. *)
Definition pickle_me : obj :=
  Obj "pickle me!" (Some (Text "pickle me!")) (Some 0%nat).
Definition pickle_heap : heap := {[ 0%nat := [AStr "36"; AStr "47"] ]}.

End Pickles.

(** ** Rendering read off a pickle

    What [__format__] and [__str__] return for the instance a pickle was
    taken from, computed from the pickle alone; and the exception, if any,
    that stops the unpickling (when [__new__] cannot take [str] of a nested
    instance). *)

Section PickledRendering.

Variable str_format : string -> string -> result string.

Fixpoint format_pickled (p : pickled) (fs : string) : result string :=
  match p with
  | Pickled pd cs =>
      let? inner :=
        match pd with
        | PText s => str_format s fs
        | PNested q => format_pickled q fs
        end in
      format_fields TEMPLATE (map py_str cs ++ [inner])%list
  end.

Definition render_pickled (p : pickled) : result string :=
  match p with
  | Pickled pd cs =>
      let? inner :=
        match pd with
        | PText s => Ok s
        | PNested q => format_pickled q ""
        end in
      format_fields TEMPLATE [_join cs; inner]
  end.

Fixpoint load_error (p : pickled) : option exn :=
  match p with
  | Pickled (PText _) _ => None
  | Pickled (PNested q) _ =>
      match load_error q with
      | Some e => Some e
      | None =>
          match render_pickled q with
          | Raise e => Some e
          | Ok _ => None
          end
      end
  end.

End PickledRendering.

(** ** Further built-in [str] operations *)

Module PyText.

Fixpoint take (n : nat) (s : string) : string :=
  match n, s with
  | S k, String c rest => String c (take k rest)
  | _, _ => ""
  end.

Fixpoint drop (n : nat) (s : string) : string :=
  match n, s with
  | S k, String _ rest => drop k rest
  | _, _ => s
  end.

(** [s.startswith(p)] and [s.endswith(t)] on whole texts. *)
Fixpoint startswith (p s : string) : bool :=
  match p, s with
  | EmptyString, _ => true
  | String a p', String b s' => Ascii.eqb a b && startswith p' s'
  | String _ _, EmptyString => false
  end.

Definition endswith (t s : string) : bool :=
  (String.length t <=? String.length s)%nat
  && String.eqb (drop (String.length s - String.length t) s) t.

(** [t in s]: [t] occurs in [s] as a substring. *)
Fixpoint contains (t s : string) : bool :=
  startswith t s
  || match s with
     | EmptyString => false
     | String _ rest => contains t rest
     end.

(** [s.removesuffix(t)]: a non-empty [t] that ends [s] is cut off. *)
Definition removesuffix (s t : string) : string :=
  if negb (String.eqb t "") && endswith t s
  then take (String.length s - String.length t) s
  else s.

(** [s.rjust(width, fill)] *)
Definition rjust (s : string) (width : Z) (fill : ascii) : string :=
  PyStr.repeat_nat (String fill "") (Z.to_nat (width - Z.of_nat (String.length s)))
  ++ s.

Definition swap_char (c : ascii) : ascii :=
  let n := nat_of_ascii c in
  if (65 <=? n)%nat && (n <=? 90)%nat then ascii_of_nat (n + 32)
  else if (97 <=? n)%nat && (n <=? 122)%nat then ascii_of_nat (n - 32)
  else c.

Definition swapcase : string -> string := PyStr.map_chars swap_char.

(** [s.capitalize()]: the first character in upper case, the rest in
    lower case. *)
Definition capitalize (s : string) : string :=
  match s with
  | EmptyString => ""
  | String c rest => String (PyStr.upper_char c) (PyStr.lower rest)
  end.

End PyText.

(** ** Further methods *)

(** [len(c)] for the value of a [data] attribute. *)
Fixpoint len_content (c : content) : result Z :=
  match c with
  | Text s => Ok (Z.of_nat (String.length s))
  | Nested (Obj _ d _) =>
      match d with
      | None => Raise AttributeError
      | Some c' => len_content c'
      end
  end.

Definition __len__ (self : obj) : result Z :=
  let? c := getattr (data_of self) in len_content c.

(** [if isinstance(char, Styled): char = char.data] *)
Definition unwrap (v : pyval) : result pyval :=
  match v with
  | VStyled o => let? c := getattr (data_of o) in Ok (as_value c)
  | VAtom _ => Ok v
  end.

(** [char in c] for [c] the value of a [data] attribute: plain text tests
    for a substring and wants a [str] on the left, of which it reads the
    text value (for an instance, that of its [str] base object); an
    instance runs its own [__contains__], unwrapping [char] once more. *)
Fixpoint in_content (char : pyval) (c : content) : result bool :=
  match c with
  | Text s =>
      match char with
      | VAtom (AStr t) => Ok (PyText.contains t s)
      | VStyled o => Ok (PyText.contains (base_of o) s)
      | VAtom _ => Raise TypeError
      end
  | Nested (Obj _ d _) =>
      let? char' := unwrap char in
      match d with
      | None => Raise AttributeError
      | Some c' => in_content char' c'
      end
  end.

Definition __contains__ (self : obj) (char : pyval) : result bool :=
  let? char' := unwrap char in
  let? c := getattr (data_of self) in
  in_content char' c.

(** [int(s)] for ASCII text: blanks around the literal are dropped; an
    optional sign; then decimal digits, where single underscores may stand
    between digits.  [None] stands for the [ValueError] of any other
    text. *)
Module PyInt.

Definition is_digit (c : ascii) : bool :=
  let n := nat_of_ascii c in (48 <=? n)%nat && (n <=? 57)%nat.






End PyInt.



Section Methods.

Variable str_format : string -> string -> result string.

Fixpoint lower (self : obj) : Py obj :=
  match self with
  | Obj _ d c =>
      let* low :=
        match d with
        | None => raise AttributeError
        | Some (Text s) => ret (VAtom (AStr (PyStr.lower s)))
        | Some (Nested o) => let* r := lower o in ret (VStyled r)
        end in
      let* new_styled := Styled_plain str_format low in
      let* l := lift (getattr c) in
      ret (set_codes new_styled l)
  end.

Fixpoint capitalize (self : obj) : Py obj :=
  match self with
  | Obj _ d c =>
      let* cap :=
        match d with
        | None => raise AttributeError
        | Some (Text s) => ret (VAtom (AStr (PyText.capitalize s)))
        | Some (Nested o) => let* r := capitalize o in ret (VStyled r)
        end in
      let* new_styled := Styled_plain str_format cap in
      let* l := lift (getattr c) in
      ret (set_codes new_styled l)
  end.

Fixpoint swapcase (self : obj) : Py obj :=
  match self with
  | Obj _ d c =>
      let* swapped :=
        match d with
        | None => raise AttributeError
        | Some (Text s) => ret (VAtom (AStr (PyText.swapcase s)))
        | Some (Nested o) => let* r := swapcase o in ret (VStyled r)
        end in
      let* new_styled := Styled_plain str_format swapped in
      let* l := lift (getattr c) in
      ret (set_codes new_styled l)
  end.

(** [lstrip(chars=None)] and [rstrip(chars=None)] with [chars] absent or
    plain text. *)
Fixpoint lstrip (self : obj) (chars : option string) : Py obj :=
  match self with
  | Obj _ d c =>
      let* stripped :=
        match d with
        | None => raise AttributeError
        | Some (Text s) => ret (VAtom (AStr (PyStr.lstrip chars s)))
        | Some (Nested o) => let* r := lstrip o chars in ret (VStyled r)
        end in
      let* new_styled := Styled_plain str_format stripped in
      let* l := lift (getattr c) in
      ret (set_codes new_styled l)
  end.

Fixpoint rstrip (self : obj) (chars : option string) : Py obj :=
  match self with
  | Obj _ d c =>
      let* stripped :=
        match d with
        | None => raise AttributeError
        | Some (Text s) => ret (VAtom (AStr (PyStr.rstrip chars s)))
        | Some (Nested o) => let* r := rstrip o chars in ret (VStyled r)
        end in
      let* new_styled := Styled_plain str_format stripped in
      let* l := lift (getattr c) in
      ret (set_codes new_styled l)
  end.

(** [rjust(width)] and [rjust(width, fillchar)] with a one-character
    [fillchar]. *)
Fixpoint rjust (self : obj) (width : Z) (fillchar : option ascii) : Py obj :=
  match self with
  | Obj _ d c =>
      let* padded :=
        match d with
        | None => raise AttributeError
        | Some (Text s) =>
            ret (VAtom (AStr (PyText.rjust s width (default " "%char fillchar))))
        | Some (Nested o) => let* r := rjust o width fillchar in ret (VStyled r)
        end in
      let* new_styled := Styled_plain str_format padded in
      let* l := lift (getattr c) in
      ret (set_codes new_styled l)
  end.

(** [translate] takes any arguments and calls [self.data.translate()]
    without them; [str.translate] wants its table. *)
Fixpoint translate (self : obj) (args : list pyval) : Py obj :=
  match self with
  | Obj _ d c =>
      let* translated :=
        match d with
        | None => raise AttributeError
        | Some (Text s) => raise TypeError
        | Some (Nested o) => let* r := translate o [] in ret (VStyled r)
        end in
      let* new_styled := Styled_plain str_format translated in
      let* l := lift (getattr c) in
      ret (set_codes new_styled l)
  end.

(** [join]: [str(self)] is plain text, which has no attribute [data]. *)
Definition join (self : obj) (seq : list pyval) : Py string :=
  let* rendered := __str__ str_format self in
  raise AttributeError.

(** The class body defines [removeprefix] twice; the second definition is
    the one bound to the name, and it calls [removesuffix].  [Styled] does
    not define [removesuffix]: on an instance it is the method of [str],
    which works on the text of the [str] base object and returns plain
    text. *)
Definition removeprefix (self : obj) (suffix : pyval) : Py obj :=
  let* suffix' := lift (unwrap suffix) in
  let* d := lift (getattr (data_of self)) in
  let subject := match d with Text s => s | Nested o => base_of o end in
  let* cut :=
    match suffix' with
    | VAtom (AStr t) => ret (PyText.removesuffix subject t)
    | VStyled o => ret (PyText.removesuffix subject (base_of o))
    | VAtom _ => raise TypeError
    end in
  let* new_styled := Styled_plain str_format (VAtom (AStr cut)) in
  let* l := lift (getattr (codes_of self)) in
  ret (set_codes new_styled l).

End Methods.

(** ** Chains of text methods

    The methods that return a new instance from the text of [self.data],
    as calls that can follow one another ([v.strip().upper().ljust(9)]). *)

Inductive text_call :=
| CallUpper
| CallLower
| CallCapitalize
| CallSwapcase
| CallStrip (chars : option string)
| CallLstrip (chars : option string)
| CallRstrip (chars : option string)
| CallLjust (width : Z) (fillchar : option ascii)
| CallRjust (width : Z) (fillchar : option ascii)
| CallMul (n : Z)
| CallRemoveprefix (suffix : string).

Definition call (str_format : string -> string -> result string)
    (m : text_call) (self : obj) : Py obj :=
  match m with
  | CallUpper => upper str_format self
  | CallLower => lower str_format self
  | CallCapitalize => capitalize str_format self
  | CallSwapcase => swapcase str_format self
  | CallStrip chars => strip str_format self chars
  | CallLstrip chars => lstrip str_format self chars
  | CallRstrip chars => rstrip str_format self chars
  | CallLjust width fillchar => ljust str_format self width fillchar
  | CallRjust width fillchar => rjust str_format self width fillchar
  | CallMul n => __mul__ str_format self n
  | CallRemoveprefix suffix => removeprefix str_format self (VAtom (AStr suffix))
  end.


(** What each call makes of plain text. *)
Definition on_text (m : text_call) (s : string) : string :=
  match m with
  | CallUpper => PyStr.upper s
  | CallLower => PyStr.lower s
  | CallCapitalize => PyText.capitalize s
  | CallSwapcase => PyText.swapcase s
  | CallStrip chars => PyStr.strip chars s
  | CallLstrip chars => PyStr.lstrip chars s
  | CallRstrip chars => PyStr.rstrip chars s
  | CallLjust width fillchar => PyStr.ljust s width (default " "%char fillchar)
  | CallRjust width fillchar => PyText.rjust s width (default " "%char fillchar)
  | CallMul n => PyStr.repeat s n
  | CallRemoveprefix suffix => PyText.removesuffix s suffix
  end.

(** The text at the bottom of a value built on other values. *)
Fixpoint innermost (o : obj) : option string :=
  match o with
  | Obj _ (Some (Text s)) _ => Some s
  | Obj _ (Some (Nested o')) _ => innermost o'
  | Obj _ None _ => None
  end.

(** The escape sequence around a text. *)
Definition framed (codes : list atom) (text : string) : string :=
  ESC ++ "[" ++ semicolon_separated codes ++ "m" ++ text ++ ESC ++ "[0m".

(** The text or exception of a computation, without the heap. *)
Definition outcome {A} (r : result (A * heap)) : result A :=
  match r with
  | Ok (a, _) => Ok a
  | Raise e => Raise e
  end.

(** * Properties *)

Local Arguments String.append !s1 s2 : simpl nomatch.

(** ** The monad and the heap *)

Lemma bind_Ok {A B} (m : Py A) (k : A -> Py B) (h : heap) (r : B * heap) :
  bind m k h = Ok r <-> exists a h1, m h = Ok (a, h1) /\ k a h1 = Ok r.
Proof.
  unfold bind. split.
  - destruct (m h) as [[a h1]|e]; [eauto | discriminate].
  - intros (a & h1 & -> & Hk). exact Hk.
Qed.

Lemma bind_run {A B} (m : Py A) (k : A -> Py B) (h h1 : heap) (a : A) :
  m h = Ok (a, h1) -> bind m k h = k a h1.
Proof. unfold bind. intros ->. reflexivity. Qed.

Lemma lift_Ok {A} (r : result A) (h h' : heap) (a : A) :
  lift r h = Ok (a, h') <-> r = Ok a /\ h' = h.
Proof.
  unfold lift. destruct r; split; try discriminate; try (intros [? _]; discriminate).
  - intros [= -> ->]. auto.
  - intros [[= ->] ->]. reflexivity.
Qed.

Lemma read_Ok (l : loc) (h h' : heap) (items : list atom) :
  read l h = Ok (items, h') <-> h !! l = Some items /\ h' = h.
Proof.
  unfold read. destruct (h !! l) as [x|]; split; try discriminate;
    try (intros [? _]; discriminate).
  - intros [= -> ->]. auto.
  - intros [[= ->] ->]. reflexivity.
Qed.

Lemma read_run (l : loc) (h : heap) (items : list atom) :
  h !! l = Some items -> read l h = Ok (items, h).
Proof. intros H. apply read_Ok. auto. Qed.

Lemma fresh_unused (h : heap) : h !! fresh (dom h) = None.
Proof. apply not_elem_of_dom, is_fresh. Qed.

Lemma fresh_differs (h : heap) (l : loc) (items : list atom) :
  h !! l = Some items -> fresh (dom h) <> l.
Proof. intros H E. rewrite <- E, fresh_unused in H. discriminate. Qed.

Lemma alloc_run (items : list atom) (h : heap) :
  alloc items h = Ok (fresh (dom h), <[fresh (dom h) := items]> h).
Proof. reflexivity. Qed.

(** Allocation leaves every list of the heap as it was. *)
Lemma alloc_keeps (h : heap) (l : loc) (items new : list atom) :
  h !! l = Some items -> <[fresh (dom h) := new]> h !! l = Some items.
Proof.
  intros H. rewrite lookup_insert_ne; [exact H | eapply fresh_differs, H].
Qed.

(** The location of a second allocation was not in use before the first. *)
Lemma unused_before_alloc (h : heap) (items : list atom) :
  h !! fresh (dom (<[fresh (dom h) := items]> h)) = None.
Proof.
  destruct (h !! fresh (dom (<[fresh (dom h) := items]> h))) as [y|] eqn:E;
    [|reflexivity].
  pose proof (fresh_unused (<[fresh (dom h) := items]> h)) as Hf.
  rewrite lookup_insert_ne in Hf; [congruence|].
  intros E'. rewrite <- E', fresh_unused in E. discriminate.
Qed.

(** ** The template *)

Lemma format_two_fields (a b : string) :
  format_fields TEMPLATE [a; b] = Ok (ESC ++ "[" ++ a ++ "m" ++ b ++ ESC ++ "[0m").
Proof. reflexivity. Qed.

Lemma format_one_argument (a : string) :
  format_fields TEMPLATE [a] = Raise IndexError.
Proof. reflexivity. Qed.

Lemma format_extra_arguments (a b : string) (rest : list string) :
  format_fields TEMPLATE (a :: b :: rest)
  = Ok (ESC ++ "[" ++ a ++ "m" ++ b ++ ESC ++ "[0m").
Proof. reflexivity. Qed.

Lemma append_empty_r (s : string) : s ++ "" = s.
Proof. induction s as [|c s IH]; simpl; [reflexivity | now rewrite IH]. Qed.

Lemma join_is_semicolon_separated (codes : list atom) :
  _join codes = semicolon_separated codes.
Proof.
  unfold _join. destruct codes as [|c rest]; [reflexivity|].
  revert c. induction rest as [|d rest IH]; intros c.
  - simpl. now rewrite append_empty_r.
  - change (py_str c ++ ";" ++ PyStr.join ";" (map py_str (d :: rest))
            = py_str c ++ ";" ++ py_str d
              ++ fold_right (fun x acc => ";" ++ py_str x ++ acc) "" rest).
    rewrite (IH d). reflexivity.
Qed.

(** ** Induction on the nesting of instances *)

Lemma obj_nesting_ind (P : obj -> Prop) :
  (forall b c, P (Obj b None c)) ->
  (forall b s c, P (Obj b (Some (Text s)) c)) ->
  (forall b o c, P o -> P (Obj b (Some (Nested o)) c)) ->
  forall o, P o.
Proof.
  intros Hnone Htext Hnested. fix IH 1. intros [b [[s|o]|] c].
  - apply Htext.
  - apply Hnested, IH.
  - apply Hnone.
Qed.

Ltac py_inv :=
  repeat match goal with
    | H : bind _ _ _ = Ok _ |- _ =>
        apply bind_Ok in H; destruct H as (? & ? & H & ?)
    | H : lift _ _ = Ok _ |- _ => apply lift_Ok in H; destruct H as [H ->]
    | H : read _ _ = Ok _ |- _ => apply read_Ok in H; destruct H as [H ->]
    | H : ret _ _ = Ok _ |- _ => unfold ret in H
    | H : raise _ _ = Ok _ |- _ => discriminate H
    | H : Raise _ = Ok _ |- _ => discriminate H
    | H : Ok _ = Ok _ |- _ => injection H as H; subst
    | H : (_, _) = (_, _) |- _ => injection H; clear H; intros; subst
    | H : getattr _ = Ok _ |- _ => unfold getattr in H
    end.

Section Properties.

Variable str_format : string -> string -> result string.
Variable str_hash : string -> Z.

(** ** Rendering reads the heap and leaves it as it is *)

Lemma format_keeps_heap (self : obj) :
  forall fs h r h', __format__ str_format self fs h = Ok (r, h') -> h' = h.
Proof.
  induction self as [b c|b s c|b o c IH] using obj_nesting_ind;
    intros fs h r h' H; simpl in H; py_inv.
  - reflexivity.
  - apply IH in H1. subst. reflexivity.
Qed.

Lemma str_keeps_heap (self : obj) (h h' : heap) (r : string) :
  __str__ str_format self h = Ok (r, h') -> h' = h.
Proof.
  unfold __str__. intros H. py_inv.
  destruct (data_of self) as [[s|o]|]; py_inv.
  - reflexivity.
  - apply format_keeps_heap in H1. subst. reflexivity.
Qed.

Lemma str_run (self : obj) (h : heap) (l : loc) (cs : list atom) (d : string) :
  codes_of self = Some l ->
  h !! l = Some cs ->
  data_of self = Some (Text d) ->
  __str__ str_format self h
  = Ok (ESC ++ "[" ++ semicolon_separated cs ++ "m" ++ d ++ ESC ++ "[0m", h).
Proof.
  intros Hc Hl Hd. unfold __str__. rewrite Hc, Hd.
  rewrite (bind_run _ _ h h l) by reflexivity.
  rewrite (bind_run _ _ h h cs) by (apply read_run, Hl).
  rewrite (bind_run _ _ h h d) by reflexivity.
  rewrite format_two_fields, join_is_semicolon_separated. reflexivity.
Qed.

(** [C1] Rendering a value whose content is the text [d] and whose code
    list holds [cs] returns ESC, an opening bracket, the codes separated by
    semicolons, the letter m, [d], and the reset sequence ESC [0m.  A code
    that is a text, a compound one such as 38;5;196 included, enters the
    parameters as it is; with no code the parameter text is empty and the
    same frame is produced. *)
Theorem str_renders_codes_then_content
    (self : obj) (h : heap) (l : loc) (cs : list atom) (d : string) :
  codes_of self = Some l ->
  h !! l = Some cs ->
  data_of self = Some (Text d) ->
  __str__ str_format self h
  = Ok (ESC ++ "[" ++ semicolon_separated cs ++ "m" ++ d ++ ESC ++ "[0m", h)
  /\ (forall compound rest, cs = AStr compound :: rest ->
      __str__ str_format self h
      = Ok (ESC ++ "[" ++ (compound
                           ++ fold_right (fun x acc => ";" ++ py_str x ++ acc) "" rest)
                ++ "m" ++ d ++ ESC ++ "[0m", h))
  /\ (cs = [] ->
      __str__ str_format self h = Ok (ESC ++ "[m" ++ d ++ ESC ++ "[0m", h)).
Proof.
  intros Hc Hl Hd.
  pose proof (str_run self h l cs d Hc Hl Hd) as Hrun.
  split; [exact Hrun | split].
  - intros compound rest ->. exact Hrun.
  - intros ->. exact Hrun.
Qed.

(** ** Construction fills the code list as [resolved_codes] says *)

Lemma append_inserted (l : loc) (items : list atom) (x : atom) (h : heap) :
  append l x (<[l := items]> h) = Ok (tt, <[l := (items ++ [x])%list]> h).
Proof.
  unfold append. rewrite lookup_insert_eq, insert_insert_eq. reflexivity.
Qed.

Lemma add_color_inserted (l : loc) (items : list atom) (h : heap)
    (sp : spec) (base : Z) (bright : bool) :
  add_color l sp base bright (<[l := items]> h)
  = match color_codes sp base bright with
    | Ok cs => Ok (tt, <[l := (items ++ cs)%list]> h)
    | Raise e => Raise e
    end.
Proof.
  unfold add_color, color_codes. destruct (spec_truthy sp).
  - unfold bind, lift.
    destruct (_color_code sp _) as [c|e]; simpl; [apply append_inserted | reflexivity].
  - simpl. unfold ret. now rewrite app_nil_r.
Qed.

Lemma add_styles_inserted (l : loc) (parts : list atom) :
  forall (items : list atom) (h : heap),
  add_styles l parts (<[l := items]> h)
  = match style_codes parts with
    | Ok cs => Ok (tt, <[l := (items ++ cs)%list]> h)
    | Raise e => Raise e
    end.
Proof.
  induction parts as [|part rest IH]; intros items h; simpl.
  - unfold ret. now rewrite app_nil_r.
  - destruct (index_of part STYLES) as [i|]; [|reflexivity].
    unfold bind. rewrite append_inserted, IH.
    destruct (style_codes rest) as [cs|e]; simpl; [|reflexivity].
    now rewrite <- app_assoc.
Qed.

Lemma init_fills_codes (self : obj) (data : pyval)
    (fg : spec) (brightfg : bool) (bg : spec) (brightbg : bool) (style : spec)
    (h : heap) :
  __init__ self data fg brightfg bg brightbg style h
  = match resolved_codes fg brightfg bg brightbg style with
    | Ok cs =>
        Ok (set_codes (set_data self (content_for data)) (fresh (dom h)),
            <[fresh (dom h) := cs]> h)
    | Raise e => Raise e
    end.
Proof.
  unfold __init__, resolved_codes.
  rewrite (bind_run _ _ h _ _ (alloc_run [] h)).
  set (l := fresh (dom h)).
  unfold bind at 1. rewrite add_color_inserted.
  destruct (color_codes fg BASE_FG brightfg) as [f|e]; simpl; [|reflexivity].
  unfold bind at 1. rewrite add_color_inserted.
  destruct (color_codes bg BASE_BG brightbg) as [b|e]; simpl; [|reflexivity].
  unfold bind at 1.
  destruct (spec_truthy style).
  - assert (Hst : forall parts,
               match add_styles l parts (<[l := (f ++ b)%list]> h) with
               | Ok (_, h') =>
                   ret (set_codes (set_data self (content_for data)) l) h'
               | Raise e => Raise e
               end
               = match (let? s := style_codes parts in Ok (f ++ b ++ s)%list) with
                 | Ok cs =>
                     Ok (set_codes (set_data self (content_for data)) l,
                         <[l := cs]> h)
                 | Raise e => Raise e
                 end).
    { intros parts. rewrite add_styles_inserted.
      destruct (style_codes parts) as [s|e]; simpl; [|reflexivity].
      unfold ret. now rewrite <- app_assoc. }
    destruct style as [[| | |s]|parts|parts]; try reflexivity;
      [exact (Hst [AStr s]) | exact (Hst parts) | exact (Hst parts)].
  - simpl. unfold ret. now rewrite app_nil_r.
Qed.

(** A construction from plain text: the instance and the heap. *)
Lemma Styled_call_text (s : string)
    (fg : spec) (brightfg : bool) (bg : spec) (brightbg : bool) (style : spec)
    (h : heap) :
  Styled_call str_format (VAtom (AStr s)) fg brightfg bg brightbg style h
  = match resolved_codes fg brightfg bg brightbg style with
    | Ok cs =>
        Ok (Obj s (Some (Text s)) (Some (fresh (dom h))), <[fresh (dom h) := cs]> h)
    | Raise e => Raise e
    end.
Proof.
  unfold Styled_call.
  rewrite (bind_run _ _ h h (Obj s None None)) by reflexivity.
  apply init_fills_codes.
Qed.

(** ** Equality and hash *)

Lemma eq_ignores_codes (b1 b2 : string) (d : option content) (c1 c2 : option loc)
    (other : pyval) :
  __eq__ (Obj b1 d c1) other = __eq__ (Obj b2 d c2) other.
Proof. destruct other as [[| | |t]|o]; reflexivity. Qed.

Lemma eq_ignores_codes_of_operand (self : obj) (b1 b2 : string)
    (d : option content) (c1 c2 : option loc) :
  __eq__ self (VStyled (Obj b1 d c1)) = __eq__ self (VStyled (Obj b2 d c2)).
Proof. reflexivity. Qed.

Lemma hash_ignores_codes (b1 b2 : string) (d : option content) (c1 c2 : option loc) :
  __hash__ str_hash (Obj b1 d c1) = __hash__ str_hash (Obj b2 d c2).
Proof. reflexivity. Qed.

Lemma eq_non_text (self : obj) (x : atom) :
  (forall t, x <> AStr t) -> __eq__ self (VAtom x) = Ok false.
Proof.
  intros Hx. destruct x as [| | |t]; try reflexivity. now destruct (Hx t).
Qed.

(** [C2] Two values constructed from the same text [s] under any two style
    specifications compare equal and have the same hash, the hash of [s];
    equality and hash do not depend on the code list of either operand, and
    a value is not equal to a value that is not text. *)
Theorem eq_and_hash_depend_on_content_only (s : string)
    (fgA : spec) (brightfgA : bool) (bgA : spec) (brightbgA : bool) (styleA : spec)
    (fgB : spec) (brightfgB : bool) (bgB : spec) (brightbgB : bool) (styleB : spec)
    (hA hA' hB hB' : heap) (a b : obj) :
  Styled_call str_format (VAtom (AStr s)) fgA brightfgA bgA brightbgA styleA hA
  = Ok (a, hA') ->
  Styled_call str_format (VAtom (AStr s)) fgB brightfgB bgB brightbgB styleB hB
  = Ok (b, hB') ->
  __eq__ a (VStyled b) = Ok true
  /\ __hash__ str_hash a = __hash__ str_hash b
  /\ __hash__ str_hash a = Ok (str_hash s)
  /\ (forall l l' other,
        __eq__ (set_codes a l) other = __eq__ (set_codes a l') other
        /\ __eq__ a (VStyled (set_codes b l)) = __eq__ a (VStyled (set_codes b l'))
        /\ __hash__ str_hash (set_codes a l) = __hash__ str_hash (set_codes a l'))
  /\ (forall x, (forall t, x <> AStr t) -> __eq__ a (VAtom x) = Ok false).
Proof.
  rewrite !Styled_call_text. intros HA HB.
  destruct (resolved_codes fgA _ _ _ _); [|discriminate].
  destruct (resolved_codes fgB _ _ _ _); [|discriminate].
  injection HA as <- _. injection HB as <- _.
  repeat split.
  - simpl. now rewrite String.eqb_refl.
  - intros x Hx. now apply eq_non_text.
Qed.

(** ** Order *)

Lemma lt_compares_content (self other : obj) (s t : string) :
  data_of self = Some (Text s) ->
  data_of other = Some (Text t) ->
  __lt__ self (VStyled other) = Ok (String.ltb s t).
Proof. unfold __lt__. intros -> ->. reflexivity. Qed.

Lemma order_against_plain_text (self : obj) (s t : string) :
  data_of self = Some (Text s) ->
  __lt__ self (VAtom (AStr t)) = Ok (String.ltb s t)
  /\ __le__ self (VAtom (AStr t)) = Ok (String.leb s t)
  /\ __gt__ self (VAtom (AStr t)) = Ok (String.ltb t s)
  /\ __ge__ self (VAtom (AStr t)) = Ok (String.leb t s).
Proof.
  unfold __lt__, __le__, __gt__, __ge__. intros ->. repeat split.
Qed.

Lemma order_against_non_text (self : obj) (x : atom) :
  (forall t, x <> AStr t) ->
  __lt__ self (VAtom x) = Raise TypeError
  /\ __le__ self (VAtom x) = Raise TypeError
  /\ __gt__ self (VAtom x) = Raise TypeError
  /\ __ge__ self (VAtom x) = Raise TypeError.
Proof.
  intros Hx. destruct x as [| | |t]; try (repeat split; reflexivity).
  now destruct (Hx t).
Qed.

(** [C3] For two values constructed from the texts [s] and [t], [<]
    returns the lexicographic comparison of [s] with [t], but [<=], [>] and
    [>=] do not: each raises [NameError].  Against plain text all four
    return the comparison of the content with that text, and against a
    value that is not text all four raise [TypeError]. *)
Theorem order_between_values_only_lt_compares (s t : string)
    (fgA : spec) (brightfgA : bool) (bgA : spec) (brightbgA : bool) (styleA : spec)
    (fgB : spec) (brightfgB : bool) (bgB : spec) (brightbgB : bool) (styleB : spec)
    (hA hA' hB hB' : heap) (a b : obj) :
  Styled_call str_format (VAtom (AStr s)) fgA brightfgA bgA brightbgA styleA hA
  = Ok (a, hA') ->
  Styled_call str_format (VAtom (AStr t)) fgB brightfgB bgB brightbgB styleB hB
  = Ok (b, hB') ->
  (__lt__ a (VStyled b) = Ok (String.ltb s t)
   /\ __le__ a (VStyled b) = Raise NameError
   /\ __gt__ a (VStyled b) = Raise NameError
   /\ __ge__ a (VStyled b) = Raise NameError)
  /\ (forall u,
        __lt__ a (VAtom (AStr u)) = Ok (String.ltb s u)
        /\ __le__ a (VAtom (AStr u)) = Ok (String.leb s u)
        /\ __gt__ a (VAtom (AStr u)) = Ok (String.ltb u s)
        /\ __ge__ a (VAtom (AStr u)) = Ok (String.leb u s))
  /\ (forall x, (forall u, x <> AStr u) ->
        __lt__ a (VAtom x) = Raise TypeError
        /\ __le__ a (VAtom x) = Raise TypeError
        /\ __gt__ a (VAtom x) = Raise TypeError
        /\ __ge__ a (VAtom x) = Raise TypeError).
Proof.
  rewrite !Styled_call_text. intros HA HB.
  destruct (resolved_codes fgA _ _ _ _); [|discriminate].
  destruct (resolved_codes fgB _ _ _ _); [|discriminate].
  injection HA as <- _. injection HB as <- _.
  split; [|split].
  - split; [now apply lt_compares_content | repeat split].
  - intros u. now apply order_against_plain_text.
  - intros x Hx. now apply order_against_non_text.
Qed.

(** ** Errors of construction *)

Lemma color_code_accepts_every_atom (a : atom) (base : Z) :
  exists c, _color_code (Atom a) base = Ok c.
Proof.
  unfold _color_code. destruct a as [| b | n | s].
  - eexists. reflexivity.
  - destruct b; eexists; reflexivity.
  - cbn [index_of as_int]. destruct ((0 <=? n) && (n <=? 255)); eexists; reflexivity.
  - generalize (PyStr.lower (PyStr.strip None s)). intros t.
    destruct (String.eqb t "default"); [eexists; reflexivity|].
    cbn [index_of as_int]. destruct (index_str t COLORS); eexists; reflexivity.
Qed.

Lemma color_code_sequence_raises (items : list atom) (base : Z) :
  _color_code (Tuple items) base = Raise NameError
  /\ _color_code (PyList items) base = Raise NameError.
Proof. split; reflexivity. Qed.

Lemma unknown_style_raises (s part : string) (h : heap) :
  part <> "" ->
  index_str part STYLES = None ->
  Styled_call str_format (VAtom (AStr s))
    (Atom ANone) false (Atom ANone) false (Atom (AStr part)) h
  = Raise ValueError.
Proof.
  intros Hne Hpart. rewrite Styled_call_text.
  unfold resolved_codes, color_codes. cbn [spec_truthy truthy rbind].
  destruct (String.eqb_spec part "") as [->|_]; [now destruct Hne|].
  cbn [negb style_codes index_of]. now rewrite Hpart.
Qed.

Lemma no_style_no_codes (s : string) (h : heap) :
  Styled_call str_format (VAtom (AStr s))
    (Atom ANone) false (Atom ANone) false (Atom ANone) h
  = Ok (Obj s (Some (Text s)) (Some (fresh (dom h))), <[fresh (dom h) := []]> h).
Proof. now rewrite Styled_call_text. Qed.

(** [C4] An integer above 255 given as the foreground raises nothing: the
    value is constructed, its code list holds the single item [None], and
    it renders with the parameter text None. *)
Theorem color_out_of_range_is_accepted (s : string) (n : Z) (h : heap) :
  255 < n ->
  Styled_call str_format (VAtom (AStr s))
    (Atom (AInt n)) false (Atom ANone) false (Atom ANone) h
  = Ok (Obj s (Some (Text s)) (Some (fresh (dom h))), <[fresh (dom h) := [ANone]]> h)
  /\ __str__ str_format (Obj s (Some (Text s)) (Some (fresh (dom h))))
       (<[fresh (dom h) := [ANone]]> h)
     = Ok (ESC ++ "[Nonem" ++ s ++ ESC ++ "[0m", <[fresh (dom h) := [ANone]]> h).
Proof.
  intros Hn. split.
  - rewrite Styled_call_text. unfold resolved_codes, color_codes.
    cbn [spec_truthy truthy rbind].
    destruct (Z.eqb_spec n 0) as [->|_]; [lia|]. cbn [negb].
    unfold _color_code. cbn [index_of as_int].
    destruct (Z.leb_spec n 255); [lia|].
    rewrite andb_false_r. reflexivity.
  - apply (str_run _ _ (fresh (dom h)) [ANone] s);
      [reflexivity | apply lookup_insert_eq | reflexivity].
Qed.

(** ** Formatting *)

Lemma format_run (self : obj) (h : heap) (l : loc) (cs : list atom)
    (d fs out : string) :
  codes_of self = Some l ->
  h !! l = Some cs ->
  data_of self = Some (Text d) ->
  str_format d fs = Ok out ->
  __format__ str_format self fs h
  = lift (format_fields TEMPLATE (map py_str cs ++ [out])%list) h.
Proof.
  destruct self as [b dd c]. simpl. intros -> Hl -> Hout.
  rewrite (bind_run _ _ h h l) by reflexivity.
  rewrite (bind_run _ _ h h cs) by (apply read_run, Hl).
  rewrite (bind_run _ _ h h out) by (now rewrite Hout).
  reflexivity.
Qed.

(** [C5] The formatted output applies the format specification to the
    content, but wraps the result like rendering does only for a value with
    exactly one code.  With no code, formatting raises [IndexError]; with
    two codes or more, the first code fills the parameter field, the second
    code takes the place of the content, and the formatted content does
    not appear. *)
Theorem format_spreads_codes_over_fields (self : obj) (h : heap) (l : loc)
    (cs : list atom) (d fs out : string) :
  codes_of self = Some l ->
  h !! l = Some cs ->
  data_of self = Some (Text d) ->
  str_format d fs = Ok out ->
  (cs = [] -> __format__ str_format self fs h = Raise IndexError)
  /\ (forall c, cs = [c] ->
      __format__ str_format self fs h
      = Ok (ESC ++ "[" ++ py_str c ++ "m" ++ out ++ ESC ++ "[0m", h))
  /\ (forall c1 c2 rest, cs = c1 :: c2 :: rest ->
      __format__ str_format self fs h
      = Ok (ESC ++ "[" ++ py_str c1 ++ "m" ++ py_str c2 ++ ESC ++ "[0m", h)).
Proof.
  intros Hc Hl Hd Hout.
  rewrite (format_run self h l cs d fs out Hc Hl Hd Hout).
  split; [|split].
  - intros ->. reflexivity.
  - intros c ->. reflexivity.
  - intros c1 c2 rest ->. reflexivity.
Qed.

(** ** Bright colors *)


(** The code of a named color: the base plus the index of the name. *)
Lemma color_code_named (s : string) (i : nat) (base : Z) :
  index_str (PyStr.lower (PyStr.strip None s)) COLORS = Some i ->
  _color_code (Atom (AStr s)) base = Ok (AStr (PyStr.of_int (base + Z.of_nat i)))
  /\ spec_truthy (Atom (AStr s)) = true.
Proof.
  intros Hi. split.
  - unfold _color_code. revert Hi.
    generalize (PyStr.lower (PyStr.strip None s)). intros t Hi.
    destruct (String.eqb_spec t "default") as [->|_]; [discriminate Hi|].
    cbn [index_of]. rewrite Hi. reflexivity.
  - destruct s; [discriminate Hi | reflexivity].
Qed.






(** ** Concatenation *)

Lemma str_of_keeps_heap (v : pyval) (h h' : heap) (r : string) :
  str_of str_format v h = Ok (r, h') -> h' = h.
Proof.
  destruct v as [a|o]; simpl.
  - intros [= _ <-]. reflexivity.
  - apply str_keeps_heap.
Qed.

(** [C7] For a text-like operand, [+] returns the rendering of the value
    followed by the rendering of the operand, and the reflected [+] the
    rendering of the operand followed by that of the value; the result is
    plain text, the rendering of a plain text operand is the operand
    itself, and the heap is left as it is.  For an operand that is not
    text-like both raise [TypeError]. *)
Theorem add_concatenates_renderings (self : obj) (other : pyval) (h : heap) :
  (is_text other = true ->
   forall a b h1 h2,
     __str__ str_format self h = Ok (a, h1) ->
     str_of str_format other h = Ok (b, h2) ->
     __add__ str_format self other h = Ok (a ++ b, h)
     /\ __radd__ str_format self other h = Ok (b ++ a, h)
     /\ (forall t, other = VAtom (AStr t) -> b = t))
  /\ (is_text other = false ->
      __add__ str_format self other h = Raise TypeError
      /\ __radd__ str_format self other h = Raise TypeError).
Proof.
  split.
  - intros Ht a b h1 h2 Ha Hb.
    pose proof (str_keeps_heap _ _ _ _ Ha) as ->.
    pose proof (str_of_keeps_heap _ _ _ _ Hb) as ->.
    unfold __add__, __radd__. rewrite Ht.
    split; [|split].
    + rewrite (bind_run _ _ h h a Ha), (bind_run _ _ h h b Hb). reflexivity.
    + rewrite (bind_run _ _ h h b Hb), (bind_run _ _ h h a Ha). reflexivity.
    + intros t ->. simpl in Hb. now injection Hb as <-.
  - intros Ht. unfold __add__, __radd__. rewrite Ht. split; reflexivity.
Qed.

(** ** New instances and the code list *)

(** [self.__class__(x)] returns an instance bound to a new, empty list. *)
Lemma Styled_plain_Ok (x : pyval) (h h' : heap) (new : obj) :
  Styled_plain str_format x h = Ok (new, h') ->
  h' = <[fresh (dom h) := []]> h
  /\ data_of new = Some (content_for x)
  /\ codes_of new = Some (fresh (dom h)).
Proof.
  unfold Styled_plain, Styled_call. intros H. py_inv.
  rewrite init_fills_codes in H0. cbn in H0. injection H0 as <- <-.
  assert (x1 = h) as ->.
  { unfold __new__ in H. py_inv. now apply str_of_keeps_heap in H. }
  destruct x0 as [b dd cc]. auto.
Qed.

Lemma set_codes_codes (o : obj) (l : loc) : codes_of (set_codes o l) = Some l.
Proof. now destruct o. Qed.

Lemma mul_shares (self : obj) (n : Z) (h h' : heap) (new : obj) :
  __mul__ str_format self n h = Ok (new, h') -> codes_of new = codes_of self.
Proof.
  destruct self as [b d [l|]]; simpl; intros H; py_inv.
  apply set_codes_codes.
Qed.

Lemma upper_shares (self : obj) (h h' : heap) (new : obj) :
  upper str_format self h = Ok (new, h') -> codes_of new = codes_of self.
Proof.
  destruct self as [b d [l|]]; simpl; intros H; py_inv.
  apply set_codes_codes.
Qed.

Lemma strip_shares (self : obj) (chars : option string) (h h' : heap) (new : obj) :
  strip str_format self chars h = Ok (new, h') -> codes_of new = codes_of self.
Proof.
  destruct self as [b d [l|]]; simpl; intros H; py_inv.
  apply set_codes_codes.
Qed.

Lemma ljust_shares (self : obj) (width : Z) (fillchar : option ascii)
    (h h' : heap) (new : obj) :
  ljust str_format self width fillchar h = Ok (new, h') ->
  codes_of new = codes_of self.
Proof.
  destruct self as [b d [l|]]; simpl; intros H; py_inv.
  apply set_codes_codes.
Qed.

(** [C8] The values returned by repetition, [upper], [strip] and [ljust]
    do not get a copy of the code list: the new value is bound to the very
    list object of the original, so an item appended through one of them is
    an item of the other. *)
Theorem derived_values_share_the_code_list
    (self new : obj) (n width : Z) (chars : option string)
    (fillchar : option ascii) (h h' : heap) :
  __mul__ str_format self n h = Ok (new, h')
  \/ upper str_format self h = Ok (new, h')
  \/ strip str_format self chars h = Ok (new, h')
  \/ ljust str_format self width fillchar h = Ok (new, h') ->
  codes_of new = codes_of self
  /\ forall l items x,
       codes_of new = Some l -> h' !! l = Some items ->
       exists h'', append l x h' = Ok (tt, h'')
                   /\ (l' ← codes_of self; h'' !! l') = Some (items ++ [x])%list.
Proof.
  intros H.
  assert (Hshare : codes_of new = codes_of self).
  { destruct H as [H|[H|[H|H]]];
      eauto using mul_shares, upper_shares, strip_shares, ljust_shares. }
  split; [exact Hshare|].
  intros l items x Hl Hitems. rewrite <- Hshare, Hl.
  unfold append. rewrite Hitems. eexists. split; [reflexivity|].
  simpl. apply lookup_insert_eq.
Qed.

(** [copy] and indexing bind the new value to a list object that did not
    exist before, holding the items of the original list. *)
Lemma copy_allocates (self new : obj) (new_data : option string)
    (h h' : heap) (l : loc) (items : list atom) :
  codes_of self = Some l ->
  h !! l = Some items ->
  copy str_format self new_data h = Ok (new, h') ->
  exists l', codes_of new = Some l' /\ l' <> l /\ h !! l' = None
             /\ h' !! l' = Some items /\ h' !! l = Some items.
Proof.
  intros Hc Hl H. unfold copy in H.
  apply bind_Ok in H as (d & h0 & Hd & H).
  assert (h0 = h) as ->.
  { destruct new_data as [s|]; [destruct (truthy (AStr s))|]; py_inv;
      reflexivity. }
  apply bind_Ok in H as (ns & h1 & Hns & H).
  apply Styled_plain_Ok in Hns as (-> & _ & _).
  rewrite Hc in H. cbn [getattr] in H.
  rewrite (bind_run _ _ _ _ l) in H by reflexivity.
  rewrite (bind_run _ _ _ _ items) in H by (apply read_run, alloc_keeps, Hl).
  rewrite (bind_run _ _ _ _ _ (alloc_run _ _)) in H.
  injection H as <- <-.
  eexists. split; [apply set_codes_codes|].
  split; [eapply fresh_differs, alloc_keeps, Hl|].
  split; [apply unused_before_alloc|].
  split; [apply lookup_insert_eq|].
  now apply alloc_keeps, alloc_keeps.
Qed.

Lemma getitem_allocates (self new : obj) (key : Z)
    (h h' : heap) (l : loc) (items : list atom) (s : string) :
  codes_of self = Some l ->
  h !! l = Some items ->
  data_of self = Some (Text s) ->
  __getitem__ str_format self key h = Ok (new, h') ->
  exists l', codes_of new = Some l' /\ l' <> l /\ h !! l' = None
             /\ h' !! l' = Some items /\ h' !! l = Some items.
Proof.
  destruct self as [b d c]. simpl. intros -> Hl -> H.
  apply bind_Ok in H as (it & h0 & Hit & H).
  assert (h0 = h) as ->.
  { destruct (PyStr.item s key); py_inv; reflexivity. }
  apply bind_Ok in H as (ns & h1 & Hns & H).
  apply Styled_plain_Ok in Hns as (-> & _ & _).
  rewrite (bind_run _ _ _ _ l) in H by reflexivity.
  rewrite (bind_run _ _ _ _ items) in H by (apply read_run, alloc_keeps, Hl).
  rewrite (bind_run _ _ _ _ _ (alloc_run _ _)) in H.
  injection H as <- <-.
  eexists. split; [apply set_codes_codes|].
  split; [eapply fresh_differs, alloc_keeps, Hl|].
  split; [apply unused_before_alloc|].
  split; [apply lookup_insert_eq|].
  now apply alloc_keeps, alloc_keeps.
Qed.

(** ** Pickling *)

Lemma pickled_nesting_ind (P : pickled -> Prop) :
  (forall s cs, P (Pickled (PText s) cs)) ->
  (forall q cs, P q -> P (Pickled (PNested q) cs)) ->
  forall p, P p.
Proof.
  intros Htext Hnested. fix IH 1. intros [[s|q] cs].
  - apply Htext.
  - apply Hnested, IH.
Qed.

Lemma lift_bind {A B} (r : result A) (f : A -> result B) (h : heap) :
  bind (lift r) (fun x => lift (f x)) h = lift (rbind r f) h.
Proof. unfold bind, lift, rbind. now destruct r. Qed.

(** [dumps] writes what [__getnewargs__] returns: the content, pickled in
    its turn when it is an instance, and the items of the code list. *)
Lemma dumps_getnewargs (v : obj) (h : heap) :
  dumps v h
  = match __getnewargs__ v with
    | Ok (Text s, l) =>
        (let* items := read l in ret (Pickled (PText s) items)) h
    | Ok (Nested o, l) =>
        (let* q := dumps o in
         let* items := read l in ret (Pickled (PNested q) items)) h
    | Raise e => Raise e
    end.
Proof.
  destruct v as [b [[s|o]|] [l|]]; try reflexivity.
  simpl. unfold bind, lift, ret. simpl.
  destruct (dumps o h) as [[q h1]|e]; reflexivity.
Qed.

Lemma dumps_keeps_heap (v : obj) :
  forall h p h', dumps v h = Ok (p, h') -> h' = h.
Proof.
  induction v as [b c|b s c|b o c IH] using obj_nesting_ind;
    intros h p h' H; simpl in H; py_inv.
  - destruct c; py_inv. reflexivity.
  - destruct c; py_inv. apply IH in H0. now subst.
Qed.

(** A heap that holds more lists pickles an instance to the same pickle. *)
Lemma dumps_weaken (v : obj) :
  forall h h' p, dumps v h = Ok (p, h) -> h ⊆ h' -> dumps v h' = Ok (p, h').
Proof.
  induction v as [b c|b s c|b o c IH] using obj_nesting_ind;
    intros h h' p H Hsub; simpl in H; [discriminate| |].
  - destruct c as [l|]; [|discriminate]. simpl in *.
    apply bind_Ok in H as (l0 & h0 & [= <- <-] & H).
    apply bind_Ok in H as (pd & h1 & [= <- <-] & H).
    apply bind_Ok in H as (items & h2 & Hr & H).
    apply read_Ok in Hr as [Hl ->]. injection H as <-.
    rewrite (bind_run _ _ h' h' l) by reflexivity.
    rewrite (bind_run _ _ h' h' (PText s)) by reflexivity.
    rewrite (bind_run _ _ h' h' items)
      by (apply read_run; eapply lookup_weaken; eassumption).
    reflexivity.
  - destruct c as [l|]; [|discriminate]. simpl in *.
    apply bind_Ok in H as (l0 & h0 & [= <- <-] & H).
    apply bind_Ok in H as (pd & h1 & Hq & H).
    apply bind_Ok in Hq as (q & h3 & Hq & [= <- <-]).
    pose proof (dumps_keeps_heap _ _ _ _ Hq) as ->.
    apply bind_Ok in H as (items & h2 & Hr & H).
    apply read_Ok in Hr as [Hl ->]. injection H as <-.
    rewrite (bind_run _ _ h' h' l) by reflexivity.
    rewrite (bind_run _ _ h' h' (PNested q)).
    2:{ rewrite (bind_run _ _ h' h' q) by (eapply IH; eassumption).
        reflexivity. }
    rewrite (bind_run _ _ h' h' items)
      by (apply read_run; eapply lookup_weaken; eassumption).
    reflexivity.
Qed.

(** Formatting and rendering an instance return what its pickle says. *)
Lemma format_of_pickle (v : obj) :
  forall h p fs,
    dumps v h = Ok (p, h) ->
    __format__ str_format v fs h = lift (format_pickled str_format p fs) h.
Proof.
  induction v as [b c|b s c|b o c IH] using obj_nesting_ind;
    intros h p fs H; simpl in H; [discriminate| |].
  - destruct c as [l|]; [|discriminate]. simpl in *.
    apply bind_Ok in H as (l0 & h0 & [= <- <-] & H).
    apply bind_Ok in H as (pd & h1 & [= <- <-] & H).
    apply bind_Ok in H as (items & h2 & Hr & H).
    pose proof Hr as Hr'. apply read_Ok in Hr' as [_ ->]. injection H as <-.
    rewrite (bind_run _ _ h h l) by reflexivity.
    rewrite (bind_run _ _ h h items Hr).
    simpl. apply lift_bind.
  - destruct c as [l|]; [|discriminate]. simpl in *.
    apply bind_Ok in H as (l0 & h0 & [= <- <-] & H).
    apply bind_Ok in H as (pd & h1 & Hq & H).
    apply bind_Ok in Hq as (q & h3 & Hq & [= <- <-]).
    pose proof (dumps_keeps_heap _ _ _ _ Hq) as ->.
    apply bind_Ok in H as (items & h2 & Hr & H).
    pose proof Hr as Hr'. apply read_Ok in Hr' as [_ ->]. injection H as <-.
    rewrite (bind_run _ _ h h l) by reflexivity.
    rewrite (bind_run _ _ h h items Hr).
    simpl. unfold bind at 1. rewrite (IH h q fs Hq).
    unfold lift, rbind. now destruct (format_pickled str_format q fs).
Qed.

Lemma str_of_pickle (v : obj) (h : heap) (p : pickled) :
  dumps v h = Ok (p, h) ->
  __str__ str_format v h = lift (render_pickled str_format p) h.
Proof.
  destruct v as [b [[s|o]|] [l|]]; simpl; intros H; try discriminate.
  - apply bind_Ok in H as (l0 & h0 & [= <- <-] & H).
    apply bind_Ok in H as (pd & h1 & [= <- <-] & H).
    apply bind_Ok in H as (items & h2 & Hr & H).
    pose proof Hr as Hr'. apply read_Ok in Hr' as [_ ->]. injection H as <-.
    unfold __str__. simpl.
    rewrite (bind_run _ _ h h l) by reflexivity.
    rewrite (bind_run _ _ h h items Hr).
    rewrite (bind_run _ _ h h s) by reflexivity.
    reflexivity.
  - apply bind_Ok in H as (l0 & h0 & [= <- <-] & H).
    apply bind_Ok in H as (pd & h1 & Hq & H).
    apply bind_Ok in Hq as (q & h3 & Hq & [= <- <-]).
    pose proof (dumps_keeps_heap _ _ _ _ Hq) as ->.
    apply bind_Ok in H as (items & h2 & Hr & H).
    pose proof Hr as Hr'. apply read_Ok in Hr' as [_ ->]. injection H as <-.
    unfold __str__. simpl.
    rewrite (bind_run _ _ h h l) by reflexivity.
    rewrite (bind_run _ _ h h items Hr).
    unfold bind at 1. rewrite (format_of_pickle o h q "" Hq).
    unfold lift, rbind. now destruct (format_pickled str_format q "").
Qed.

(** Every value with text content and its code list in the heap pickles
    and renders. *)
Lemma text_value_pickles_and_renders
    (v : obj) (h : heap) (s : string) (l : loc) (cs : list atom) :
  data_of v = Some (Text s) ->
  codes_of v = Some l ->
  h !! l = Some cs ->
  __getnewargs__ v = Ok (Text s, l)
  /\ dumps v h = Ok (Pickled (PText s) cs, h)
  /\ __str__ str_format v h
     = Ok (ESC ++ "[" ++ semicolon_separated cs ++ "m" ++ s ++ ESC ++ "[0m", h).
Proof.
  intros Hd Hc Hl.
  assert (Hargs : __getnewargs__ v = Ok (Text s, l)).
  { unfold __getnewargs__. now rewrite Hd, Hc. }
  split; [exact Hargs|]. split; [|now apply (str_run v h l cs s)].
  rewrite dumps_getnewargs, Hargs.
  now rewrite (bind_run _ _ h h cs (read_run _ _ _ Hl)).
Qed.

(** An exception that stops unpickling also stops rendering. *)
Lemma render_raises_format_raises (q : pickled) (e : exn) :
  render_pickled str_format q = Raise e ->
  format_pickled str_format q "" = Raise e.
Proof.
  destruct q as [[s|q'] cs]; cbn [render_pickled format_pickled rbind].
  - rewrite format_two_fields. discriminate.
  - destruct (format_pickled str_format q' "") as [inner|e']; cbn [rbind].
    + rewrite format_two_fields. discriminate.
    + auto.
Qed.

Lemma load_error_format_raises (q : pickled) (e : exn) :
  load_error str_format q = Some e ->
  format_pickled str_format q "" = Raise e.
Proof.
  induction q as [s cs|q' cs IH] using pickled_nesting_ind;
    [discriminate|].
  cbn [load_error format_pickled].
  destruct (load_error str_format q') as [e'|].
  - intros [= <-]. now rewrite (IH eq_refl).
  - destruct (render_pickled str_format q') as [r|e'] eqn:E; [discriminate|].
    intros [= <-]. now rewrite (render_raises_format_raises _ _ E).
Qed.

Lemma load_error_render_raises (p : pickled) (e : exn) :
  load_error str_format p = Some e -> render_pickled str_format p = Raise e.
Proof.
  destruct p as [[s|q] cs]; [discriminate|].
  cbn [load_error render_pickled].
  destruct (load_error str_format q) as [e'|] eqn:Eq.
  - intros [= <-]. now rewrite (load_error_format_raises _ _ Eq).
  - destruct (render_pickled str_format q) as [r|e'] eqn:E; [discriminate|].
    intros [= <-]. now rewrite (render_raises_format_raises _ _ E).
Qed.

(** [__new__] with a list of codes: an instance without attributes or
    with a copy of the list, in a heap that keeps every list. *)
Lemma new_run (data : pyval) (l : loc) (cs : list atom) (h : heap) (base : string) :
  str_of str_format data h = Ok (base, h) ->
  h !! l = Some cs ->
  exists inst h', __new__ str_format data (Some l) h = Ok (inst, h') /\ h ⊆ h'.
Proof.
  intros Hstr Hl. unfold __new__.
  rewrite (bind_run _ _ h h base Hstr).
  rewrite (bind_run _ _ h h cs (read_run _ _ _ Hl)).
  destruct cs as [|c cs'].
  - eexists _, h. split; reflexivity.
  - rewrite (bind_run _ _ _ _ _ (alloc_run (c :: cs') h)).
    eexists _, _. split; [reflexivity|]. apply insert_subseteq, fresh_unused.
Qed.

Lemma new_raises (data : pyval) (codes : option loc) (h : heap) (e : exn) :
  str_of str_format data h = Raise e ->
  __new__ str_format data codes h = Raise e.
Proof. intros H. unfold __new__, bind. now rewrite H. Qed.

(** The instance unpickling builds pickles back to the pickle it came
    from. *)
Lemma dumps_rebuilt (inst : obj) (d : content) (pd : pcontent) (l : loc)
    (cs : list atom) (h : heap) :
  (match d with
   | Text s => ret (PText s)
   | Nested o => let* q := dumps o in ret (PNested q)
   end) h = Ok (pd, h) ->
  h !! l = Some cs ->
  dumps (set_codes (set_data inst d) l) h = Ok (Pickled pd cs, h).
Proof.
  intros Hd Hl. destruct inst as [b di ci]. cbn [set_data set_codes dumps].
  rewrite (bind_run _ _ h h l) by reflexivity.
  rewrite (bind_run _ _ h h pd Hd).
  now rewrite (bind_run _ _ h h cs (read_run _ _ _ Hl)).
Qed.

(** Unpickling stops with [load_error], or returns an instance that
    pickles back to the same pickle, bound to a list object that the heap
    did not hold, and keeps every list of the heap. *)
Lemma loads_spec (p : pickled) :
  forall h,
    match load_error str_format p with
    | Some e => loads str_format p h = Raise e
    | None =>
        exists w h' l,
          loads str_format p h = Ok (w, h')
          /\ dumps w h' = Ok (p, h')
          /\ h ⊆ h'
          /\ codes_of w = Some l /\ h !! l = None
    end.
Proof.
  induction p as [s cs|q cs IH] using pickled_nesting_ind; intros h.
  - cbn [load_error loads].
    rewrite (bind_run _ _ h h (Text s)) by reflexivity.
    rewrite (bind_run _ _ _ _ _ (alloc_run cs h)).
    set (l := fresh (dom h)). set (h1 := <[l := cs]> h).
    assert (Hl : h1 !! l = Some cs) by apply lookup_insert_eq.
    assert (Hsub : h ⊆ h1) by apply insert_subseteq, fresh_unused.
    destruct (new_run (as_value (Text s)) l cs h1 s eq_refl Hl)
      as (inst & h2 & Hnew & Hsub2).
    rewrite (bind_run _ _ _ _ _ Hnew).
    exists (set_codes (set_data inst (Text s)) l), h2, l.
    split; [reflexivity|]. split; [|split; [now transitivity h1|]].
    + apply dumps_rebuilt; [reflexivity|].
      eapply lookup_weaken; eassumption.
    + split; [apply set_codes_codes | apply fresh_unused].
  - cbn [load_error loads]. specialize (IH h).
    destruct (load_error str_format q) as [e|].
    { unfold bind at 1. unfold bind at 1. now rewrite IH. }
    destruct IH as (o & ha & lo & Hload & Hdump & Hsub & _).
    rewrite (bind_run _ _ h ha (Nested o))
      by (now rewrite (bind_run _ _ h ha o Hload)).
    rewrite (bind_run _ _ _ _ _ (alloc_run cs ha)).
    set (l := fresh (dom ha)). set (hb := <[l := cs]> ha).
    assert (Hl : hb !! l = Some cs) by apply lookup_insert_eq.
    assert (Hsubb : ha ⊆ hb) by apply insert_subseteq, fresh_unused.
    assert (Hfresh : h !! l = None).
    { destruct (h !! l) as [y|] eqn:E; [|reflexivity].
      pose proof (lookup_weaken _ _ _ _ E Hsub) as E'.
      unfold l in E'. now rewrite fresh_unused in E'. }
    pose proof (dumps_weaken o ha hb q Hdump Hsubb) as Hdumpb.
    pose proof (str_of_pickle o hb q Hdumpb) as Hstr.
    destruct (render_pickled str_format q) as [base|e].
    + destruct (new_run (as_value (Nested o)) l cs hb base Hstr Hl)
        as (inst & hc & Hnew & Hsubc).
      rewrite (bind_run _ _ _ _ _ Hnew).
      exists (set_codes (set_data inst (Nested o)) l), hc, l.
      split; [reflexivity|].
      split; [|split; [now transitivity ha; [|transitivity hb]|]].
      * apply dumps_rebuilt; [|eapply lookup_weaken; eassumption].
        now rewrite (bind_run _ _ hc hc q (dumps_weaken o hb hc q Hdumpb Hsubc)).
      * split; [apply set_codes_codes | exact Hfresh].
    + unfold bind at 1.
      now rewrite (new_raises (as_value (Nested o)) (Some l) hb e Hstr).
Qed.

(** Two instances with the same pickle are equal. *)
Lemma same_pickle_eq (w : obj) :
  forall v p h h',
    dumps w h' = Ok (p, h') -> dumps v h = Ok (p, h) ->
    __eq__ w (VStyled v) = Ok true.
Proof.
  induction w as [b c|b s c|b o c IH] using obj_nesting_ind;
    intros v p h h' Hw Hv; simpl in Hw; [discriminate| |].
  - destruct c; py_inv.
    destruct v as [bv [[sv|ov]|] [cv|]]; simpl in Hv; py_inv.
    all: try discriminate.
    cbn. now rewrite String.eqb_refl.
  - destruct c; py_inv.
    match goal with H : dumps o _ = Ok _ |- _ =>
      pose proof (dumps_keeps_heap _ _ _ _ H); subst; rename H into Ho end.
    destruct v as [bv [[sv|ov]|] [cv|]]; simpl in Hv; py_inv.
    all: try discriminate.
    try match goal with H : PNested _ = PNested _ |- _ => injection H as -> end.
    match goal with H : dumps ov _ = Ok _ |- _ =>
      pose proof (dumps_keeps_heap _ _ _ _ H); subst; rename H into Hov end.
    specialize (IH ov _ _ _ Ho Hov).
    destruct o as [bo [ca|] co], ov as [bov dov cov];
      [exact IH | discriminate IH].
Qed.

(** [C9] A value is pickled from the pair that [__getnewargs__] returns,
    its content and its code list.  For every value that renders,
    unpickling that pair, in any heap, yields a value equal to the original
    one, whose rendering is the text that rendering the original returns;
    the new value holds a list object of its own. *)
Theorem pickle_round_trip_renders_alike
    (v : obj) (h h1 : heap) (p : pickled) (r : string) :
  dumps v h = Ok (p, h) ->
  __str__ str_format v h = Ok (r, h) ->
  exists w h' l,
    loads str_format p h1 = Ok (w, h')
    /\ __eq__ w (VStyled v) = Ok true
    /\ __str__ str_format w h' = Ok (r, h')
    /\ codes_of w = Some l /\ h1 !! l = None.
Proof.
  intros Hdump Hstr.
  rewrite (str_of_pickle v h p Hdump) in Hstr.
  apply lift_Ok in Hstr as [Hrender _].
  pose proof (loads_spec p h1) as Hload.
  destruct (load_error str_format p) as [e|] eqn:E.
  { rewrite (load_error_render_raises p e E) in Hrender. discriminate. }
  destruct Hload as (w & h' & l & Hload & Hw & _ & Hc & Hfresh).
  exists w, h', l. split; [exact Hload|].
  split; [exact (same_pickle_eq w v p h h' Hw Hdump)|].
  split; [|auto].
  rewrite (str_of_pickle w h' p Hw), Hrender. reflexivity.
Qed.

(** The constructor itself, called on the pair, does not rebuild the
    value: the code list arrives as the foreground specification. *)
Lemma constructor_on_pair_raises (s : string) (l : loc) (c : atom)
    (cs : list atom) (h : heap) :
  h !! l = Some (c :: cs) ->
  Styled_from_pair str_format (VAtom (AStr s)) l h = Raise NameError.
Proof.
  intros Hl. unfold Styled_from_pair.
  destruct (new_run (VAtom (AStr s)) l (c :: cs) h s eq_refl Hl)
    as (inst & h1 & Hnew & Hsub).
  rewrite (bind_run _ _ _ _ _ Hnew).
  rewrite (bind_run _ _ h1 h1 (c :: cs))
    by (apply read_run; eapply lookup_weaken; eassumption).
  now rewrite init_fills_codes.
Qed.

(** ** A value given as content *)

(** [C10] When the constructor is given a value as content, [data] of the
    new value is bound to the given value itself, not to a text copied from
    its content; the code list of the new value is a new list holding the
    codes of the arguments of this construction. *)
Theorem init_binds_data_to_the_given_value
    (given new : obj)
    (fg : spec) (brightfg : bool) (bg : spec) (brightbg : bool) (style : spec)
    (h h' : heap) :
  Styled_call str_format (VStyled given) fg brightfg bg brightbg style h
  = Ok (new, h') ->
  data_of new = Some (Nested given)
  /\ (forall t, data_of new <> Some (Text t))
  /\ exists cs, resolved_codes fg brightfg bg brightbg style = Ok cs
                /\ codes_of new = Some (fresh (dom h))
                /\ h' = <[fresh (dom h) := cs]> h.
Proof.
  unfold Styled_call. intros H.
  apply bind_Ok in H as (self & h0 & Hnew & H).
  assert (h0 = h) as ->.
  { unfold __new__ in Hnew. py_inv. now apply str_of_keeps_heap in Hnew. }
  rewrite init_fills_codes in H.
  destruct (resolved_codes fg brightfg bg brightbg style) as [cs|e];
    [|discriminate].
  injection H as <- <-. destruct self as [b d c]. simpl.
  split; [reflexivity|]. split; [discriminate|].
  exists cs. auto.
Qed.

End Properties.

(** A value with a compound code and a style code, in a heap holding its
    list. *)
Lemma str_renders_codes_then_content_witness :
  codes_of Demo.red_hi = Some 0%nat /\
  Demo.palette_heap !! 0%nat = Some [AStr "48;5;196"; AInt 1] /\
  data_of Demo.red_hi = Some (Text "hi") /\
  __str__ Sample.format Demo.red_hi Demo.palette_heap
  = Ok (ESC ++ "[" ++ "48;5;196;1" ++ "m" ++ "hi" ++ ESC ++ "[0m", Demo.palette_heap).
Proof.
  split; [reflexivity | split; [reflexivity | split; [reflexivity |]]].
  exact (proj1 (str_renders_codes_then_content Sample.format Demo.red_hi
                  Demo.palette_heap 0%nat [AStr "48;5;196"; AInt 1] "hi"
                  eq_refl eq_refl eq_refl)).
Defined.

(** ** Runs of the class on concrete values *)

(** The two values of the hash test of the repository. *)
Lemma eq_and_hash_depend_on_content_only_witness :
  Styled_call Sample.format (Demo.text "not a string")
    (Demo.named "magenta") false Demo.none false Demo.none ∅
  = Ok (Runs.magenta, Runs.magenta_heap)
  /\ Styled_call Sample.format (Demo.text "not a string")
       Demo.none false (Demo.named "black") false Demo.none Runs.magenta_heap
     = Ok (Runs.on_black, Runs.on_black_heap)
  /\ __eq__ Runs.magenta (VStyled Runs.on_black) = Ok true
  /\ __hash__ Sample.hash Runs.magenta = __hash__ Sample.hash Runs.on_black
  /\ __hash__ Sample.hash Runs.magenta = Ok (Sample.hash "not a string").
Proof.
  assert (HA : Styled_call Sample.format (Demo.text "not a string")
                 (Demo.named "magenta") false Demo.none false Demo.none ∅
               = Ok (Runs.magenta, Runs.magenta_heap)) by (vm_compute; reflexivity).
  assert (HB : Styled_call Sample.format (Demo.text "not a string")
                 Demo.none false (Demo.named "black") false Demo.none
                 Runs.magenta_heap
               = Ok (Runs.on_black, Runs.on_black_heap)) by (vm_compute; reflexivity).
  split; [exact HA | split; [exact HB |]].
  pose proof (eq_and_hash_depend_on_content_only Sample.format Sample.hash
                _ _ _ _ _ _ _ _ _ _ _ _ _ _ _ _ _ HA HB) as (He & Hh & Hs & _).
  split; [exact He | split; [exact Hh | exact Hs]].
Defined.

(** [Styled('hi', fg=300)] and its rendering. *)
Lemma color_out_of_range_is_accepted_witness :
  255 < 300
  /\ Styled_call Sample.format (Demo.text "hi")
       (Atom (AInt 300)) false Demo.none false Demo.none ∅
     = Ok (Demo.red_hi, Runs.none_code_heap)
  /\ __str__ Sample.format Demo.red_hi Runs.none_code_heap
     = Ok (ESC ++ "[Nonemhi" ++ ESC ++ "[0m", Runs.none_code_heap).
Proof.
  split; [lia|].
  exact (color_out_of_range_is_accepted Sample.format "hi" 300 ∅ ltac:(lia)).
Defined.

(** [format(Styled('hi', fg='red', bg='blue'), '>5')] *)
Lemma format_spreads_codes_over_fields_witness :
  codes_of Demo.red_hi = Some 0%nat
  /\ Demo.red_on_blue_heap !! 0%nat = Some [AStr "31"; AStr "44"]
  /\ data_of Demo.red_hi = Some (Text "hi")
  /\ Sample.format "hi" ">5" = Ok "   hi"
  /\ __format__ Sample.format Demo.red_hi ">5" Demo.red_on_blue_heap
     = Ok (ESC ++ "[31m44" ++ ESC ++ "[0m", Demo.red_on_blue_heap).
Proof.
  split; [reflexivity | split; [reflexivity | split; [reflexivity |
    split; [reflexivity |]]]].
  exact (proj2 (proj2 (format_spreads_codes_over_fields Sample.format
                         Demo.red_hi Demo.red_on_blue_heap 0%nat
                         [AStr "31"; AStr "44"] "hi" ">5" "   hi"
                         eq_refl eq_refl eq_refl eq_refl))
           (AStr "31") (AStr "44") [] eq_refl).
Defined.



(** [Styled('hi', fg='red') + '!'] and ['!' + Styled('hi', fg='red')] *)
Lemma add_concatenates_renderings_witness :
  is_text (Demo.text "!") = true
  /\ __str__ Sample.format Demo.red_hi Demo.red_heap
     = Ok (ESC ++ "[31mhi" ++ ESC ++ "[0m", Demo.red_heap)
  /\ str_of Sample.format (Demo.text "!") Demo.red_heap = Ok ("!", Demo.red_heap)
  /\ __add__ Sample.format Demo.red_hi (Demo.text "!") Demo.red_heap
     = Ok ((ESC ++ "[31mhi" ++ ESC ++ "[0m") ++ "!", Demo.red_heap)
  /\ __radd__ Sample.format Demo.red_hi (Demo.text "!") Demo.red_heap
     = Ok ("!" ++ (ESC ++ "[31mhi" ++ ESC ++ "[0m"), Demo.red_heap).
Proof.
  split; [reflexivity | split; [reflexivity | split; [reflexivity |]]].
  pose proof (proj1 (add_concatenates_renderings Sample.format Demo.red_hi
                       (Demo.text "!") Demo.red_heap)
                eq_refl _ _ _ _ eq_refl eq_refl) as (Ha & Hr & _).
  split; [exact Ha | exact Hr].
Defined.

(** [v = Styled('hi', fg='red'); w = v.upper()]: [w._codes is v._codes]. *)
Lemma derived_values_share_the_code_list_witness :
  upper Sample.format Demo.red_hi Demo.red_heap
  = Ok (Runs.upper_hi, <[ 1%nat := [] ]> Demo.red_heap)
  /\ codes_of Runs.upper_hi = codes_of Demo.red_hi.
Proof.
  assert (H : upper Sample.format Demo.red_hi Demo.red_heap
              = Ok (Runs.upper_hi, <[ 1%nat := [] ]> Demo.red_heap))
    by (vm_compute; reflexivity).
  split; [exact H|].
  exact (proj1 (derived_values_share_the_code_list Sample.format
                  Demo.red_hi Runs.upper_hi 0 0 None None _ _
                  (or_intror (or_introl H)))).
Defined.

(** The value of the pickle test, unpickled in the heap it lives in. *)
Lemma pickle_round_trip_renders_alike_witness :
  dumps Pickles.pickle_me Pickles.pickle_heap
  = Ok (Pickled (PText "pickle me!") [AStr "36"; AStr "47"], Pickles.pickle_heap)
  /\ __str__ Sample.format Pickles.pickle_me Pickles.pickle_heap
     = Ok (ESC ++ "[36;47mpickle me!" ++ ESC ++ "[0m", Pickles.pickle_heap)
  /\ exists w h' l,
       loads Sample.format (Pickled (PText "pickle me!") [AStr "36"; AStr "47"])
         Pickles.pickle_heap = Ok (w, h')
       /\ __eq__ w (VStyled Pickles.pickle_me) = Ok true
       /\ __str__ Sample.format w h'
          = Ok (ESC ++ "[36;47mpickle me!" ++ ESC ++ "[0m", h')
       /\ codes_of w = Some l /\ Pickles.pickle_heap !! l = None.
Proof.
  split; [reflexivity | split; [reflexivity |]].
  exact (pickle_round_trip_renders_alike Sample.format Pickles.pickle_me
           Pickles.pickle_heap Pickles.pickle_heap _ _ eq_refl eq_refl).
Defined.

(** [Styled(Styled('hi', fg='red'))] *)
Lemma init_binds_data_to_the_given_value_witness :
  Styled_call Sample.format (VStyled Demo.red_hi)
    Demo.none false Demo.none false Demo.none Demo.red_heap
  = Ok (Runs.wrapped, Runs.wrapped_heap)
  /\ data_of Runs.wrapped = Some (Nested Demo.red_hi).
Proof.
  assert (H : Styled_call Sample.format (VStyled Demo.red_hi)
                Demo.none false Demo.none false Demo.none Demo.red_heap
              = Ok (Runs.wrapped, Runs.wrapped_heap)) by (vm_compute; reflexivity).
  split; [exact H|].
  exact (proj1 (init_binds_data_to_the_given_value Sample.format
                  _ _ _ _ _ _ _ _ _ H)).
Defined.

(** The rendering of [Styled(Styled('hi', fg='red'))] carries the escape
    sequence of the given value inside its own. *)
Example wrapped_renders_inner_codes :
  __str__ Sample.format Runs.wrapped Runs.wrapped_heap
  = Ok (ESC ++ "[m" ++ (ESC ++ "[31mhi" ++ ESC ++ "[0m") ++ ESC ++ "[0m",
        Runs.wrapped_heap).
Proof. vm_compute. reflexivity. Qed.

(** [Styled('a', fg='red') <= Styled('b')], and the three other orders. *)
Lemma order_between_values_only_lt_compares_witness :
  Styled_call Sample.format (Demo.text "a")
    (Demo.named "red") false Demo.none false Demo.none ∅
  = Ok (Runs.red_a, Demo.red_heap)
  /\ Styled_call Sample.format (Demo.text "b")
       Demo.none false Demo.none false Demo.none ∅
     = Ok (Runs.plain_b, Demo.plain_heap)
  /\ __lt__ Runs.red_a (VStyled Runs.plain_b) = Ok true
  /\ __le__ Runs.red_a (VStyled Runs.plain_b) = Raise NameError
  /\ __gt__ Runs.red_a (VStyled Runs.plain_b) = Raise NameError
  /\ __ge__ Runs.red_a (VStyled Runs.plain_b) = Raise NameError.
Proof.
  assert (HA : Styled_call Sample.format (Demo.text "a")
                 (Demo.named "red") false Demo.none false Demo.none ∅
               = Ok (Runs.red_a, Demo.red_heap)) by (vm_compute; reflexivity).
  assert (HB : Styled_call Sample.format (Demo.text "b")
                 Demo.none false Demo.none false Demo.none ∅
               = Ok (Runs.plain_b, Demo.plain_heap)) by (vm_compute; reflexivity).
  split; [exact HA | split; [exact HB |]].
  exact (proj1 (order_between_values_only_lt_compares Sample.format
                  _ _ _ _ _ _ _ _ _ _ _ _ _ _ _ _ _ _ HA HB)).
Defined.

(** The renderings listed among the testable properties of the
    specification. *)
Example render_red :
  (let* v := Styled_call Sample.format (Demo.text "hi")
               (Demo.named "red") false Demo.none false Demo.none in
   __str__ Sample.format v) ∅
  = Ok (ESC ++ "[31mhi" ++ ESC ++ "[0m", Demo.red_heap).
Proof. vm_compute. reflexivity. Qed.

Example render_bright_red :
  (let* v := Styled_call Sample.format (Demo.text "hi")
               (Demo.named "red") true Demo.none false Demo.none in
   __str__ Sample.format v) ∅
  = Ok (ESC ++ "[91mhi" ++ ESC ++ "[0m", {[ 0%nat := [AStr "91"] ]}).
Proof. vm_compute. reflexivity. Qed.

Example render_palette_background :
  (let* v := Styled_call Sample.format (Demo.text "hi")
               Demo.none false (Atom (AInt 196)) false Demo.none in
   __str__ Sample.format v) ∅
  = Ok (ESC ++ "[48;5;196mhi" ++ ESC ++ "[0m", {[ 0%nat := [AStr "48;5;196"] ]}).
Proof. vm_compute. reflexivity. Qed.

Example unknown_style_glow :
  Styled_call Sample.format (Demo.text "hi")
    Demo.none false Demo.none false (Demo.named "glow") ∅
  = Raise ValueError.
Proof. vm_compute. reflexivity. Qed.

(** An RGB triple as foreground stops at the undefined global [_join]. *)
Example rgb_triple_raises :
  Styled_call Sample.format (Demo.text "hi")
    (Tuple [AInt 255; AInt 0; AInt 0]) false Demo.none false Demo.none ∅
  = Raise NameError.
Proof. vm_compute. reflexivity. Qed.

(** [format(Styled('hi'), '>5')] and [format(Styled('hi', fg='red'), '>5')] *)
Example format_without_code :
  __format__ Sample.format Demo.red_hi ">5" Demo.plain_heap = Raise IndexError.
Proof. vm_compute. reflexivity. Qed.

Example format_with_one_code :
  __format__ Sample.format Demo.red_hi ">5" Demo.red_heap
  = Ok (ESC ++ "[31m   hi" ++ ESC ++ "[0m", Demo.red_heap).
Proof. vm_compute. reflexivity. Qed.

(** [v = Styled('hi', fg='red'); w = v.upper(); w._codes.append(1)]: the
    rendering of [v] shows the appended code. *)
Example append_through_upper_reaches_original :
  (let* w := upper Sample.format Demo.red_hi in
   let* l := lift (getattr (codes_of w)) in
   let* _ := append l (AInt 1) in
   __str__ Sample.format Demo.red_hi) Demo.red_heap
  = Ok (ESC ++ "[31;1mhi" ++ ESC ++ "[0m",
        <[ 0%nat := [AStr "31"; AInt 1] ]> (<[ 1%nat := [] ]> Demo.red_heap)).
Proof. vm_compute. reflexivity. Qed.

(** The same through [copy] leaves the original as it was. *)
Example append_through_copy_stays_apart :
  (let* w := copy Sample.format Demo.red_hi None in
   let* l := lift (getattr (codes_of w)) in
   let* _ := append l (AInt 1) in
   __str__ Sample.format Demo.red_hi) Demo.red_heap
  = Ok (ESC ++ "[31mhi" ++ ESC ++ "[0m",
        <[ 2%nat := [AStr "31"; AInt 1] ]> (<[ 1%nat := [] ]> Demo.red_heap)).
Proof. vm_compute. reflexivity. Qed.

(** * Further properties *)

(** ** Substrings, prefixes and suffixes *)

Lemma length_app (s t : string) :
  String.length (s ++ t) = (String.length s + String.length t)%nat.
Proof. induction s as [|c s IH]; simpl; [reflexivity | now rewrite IH]. Qed.

Lemma take_drop (n : nat) (s : string) : PyText.take n s ++ PyText.drop n s = s.
Proof.
  revert s. induction n as [|n IH]; intros [|c s]; simpl; try reflexivity.
  now rewrite IH.
Qed.

Lemma drop_app (p t : string) : PyText.drop (String.length p) (p ++ t) = t.
Proof. induction p as [|c p IH]; simpl; [now destruct t | exact IH]. Qed.

Lemma take_app (p t : string) : PyText.take (String.length p) (p ++ t) = p.
Proof. induction p as [|c p IH]; simpl; [now destruct t | now rewrite IH]. Qed.

Lemma startswith_spec (p s : string) :
  PyText.startswith p s = true <-> exists w, s = p ++ w.
Proof.
  revert s. induction p as [|a p IH]; intros s; simpl.
  - split; [intros _; now exists s | reflexivity].
  - destruct s as [|b s]; [split; [discriminate | intros [w Hw]; discriminate]|].
    rewrite andb_true_iff, IH. split.
    + intros [Hab [w ->]]. apply Ascii.eqb_eq in Hab as ->. now exists w.
    + intros [w [= -> ->]]. split; [apply Ascii.eqb_refl | now exists w].
Qed.

(** [t in s] holds exactly when [s] is some text, then [t], then some
    text. *)
Lemma contains_spec (t s : string) :
  PyText.contains t s = true <-> exists u w, s = u ++ t ++ w.
Proof.
  induction s as [|c s IH]; simpl.
  - rewrite orb_false_r, startswith_spec. split.
    + intros [w Hw]. now exists "", w.
    + intros (u & w & H). destruct u; [now exists w | discriminate].
  - rewrite orb_true_iff, startswith_spec, IH. split.
    + intros [[w Hw] | (u & w & ->)].
      * now exists "", w.
      * now exists (String c u), w.
    + intros (u & w & H). destruct u as [|a u].
      * left. now exists w.
      * right. injection H as -> ->. now exists u, w.
Qed.

Lemma endswith_spec (t s : string) :
  PyText.endswith t s = true <-> exists p, s = p ++ t.
Proof.
  unfold PyText.endswith. rewrite andb_true_iff, Nat.leb_le, String.eqb_eq.
  split.
  - intros [_ H]. exists (PyText.take (String.length s - String.length t) s).
    pose proof (take_drop (String.length s - String.length t) s) as Htd.
    rewrite H in Htd. now symmetry.
  - intros [p ->]. rewrite length_app. split; [lia|].
    replace (String.length p + String.length t - String.length t)%nat
      with (String.length p) by lia.
    apply drop_app.
Qed.

(** [removesuffix] cuts a non-empty ending off and nothing else. *)
Lemma removesuffix_spec (s t : string) :
  (t <> "" /\ exists p, s = p ++ t /\ PyText.removesuffix s t = p)
  \/ ((t = "" \/ ~ exists p, s = p ++ t) /\ PyText.removesuffix s t = s).
Proof.
  unfold PyText.removesuffix.
  destruct (String.eqb_spec t "") as [->|Hne]; [right; auto|].
  destruct (PyText.endswith t s) eqn:E; cbn [negb andb].
  - left. split; [exact Hne|]. apply endswith_spec in E as [p ->].
    exists p. split; [reflexivity|]. rewrite length_app.
    replace (String.length p + String.length t - String.length t)%nat
      with (String.length p) by lia.
    apply take_app.
  - right. split; [|reflexivity]. right. intros Hp.
    apply endswith_spec in Hp. congruence.
Qed.

(** ** Decimal literals *)









Section Further.

Variable str_format : string -> string -> result string.
Variable str_hash : string -> Z.

(** ** Text methods keep the style *)

Lemma Styled_plain_text (t : string) (h : heap) :
  Styled_plain str_format (VAtom (AStr t)) h
  = Ok (Obj t (Some (Text t)) (Some (fresh (dom h))), <[fresh (dom h) := []]> h).
Proof. apply no_style_no_codes. Qed.

Lemma call_on_text (m : text_call) (b s : string) (l : loc) (h : heap) :
  call str_format m (Obj b (Some (Text s)) (Some l)) h
  = Ok (Obj (on_text m s) (Some (Text (on_text m s))) (Some l),
        <[fresh (dom h) := []]> h).
Proof.
  destruct m as [| | | | chars | chars | chars | w f | w f | n | x];
    cbn [call on_text];
    try (simpl; unfold bind at 1; cbn [ret];
         rewrite (bind_run _ _ _ _ _ (Styled_plain_text _ h));
         reflexivity).
  unfold removeprefix. cbn [unwrap data_of codes_of getattr].
  rewrite (bind_run _ _ h h (VAtom (AStr x))) by reflexivity.
  rewrite (bind_run _ _ h h (Text s)) by reflexivity.
  rewrite (bind_run _ _ h h (PyText.removesuffix s x)) by reflexivity.
  rewrite (bind_run _ _ _ _ _ (Styled_plain_text _ h)).
  reflexivity.
Qed.


(** ** Codes of a construction *)

Lemma style_codes_of_names (names : list string) (ks : list nat) :
  Forall2 (fun name k => index_str name STYLES = Some k) names ks ->
  style_codes (map AStr names) = Ok (map (fun k => AInt (Z.of_nat k)) ks).
Proof.
  induction 1 as [|name k names ks Hk _ IH]; [reflexivity|].
  cbn [map style_codes index_of]. rewrite Hk, IH. reflexivity.
Qed.

Lemma style_codes_stop (valid : list string) (bad : atom) (rest : list atom) :
  Forall (fun name => index_str name STYLES <> None) valid ->
  index_of bad STYLES = None ->
  style_codes (map AStr valid ++ bad :: rest)%list = Raise ValueError.
Proof.
  intros Hvalid Hbad. induction Hvalid as [|name valid Hname _ IH].
  - cbn [map app style_codes]. now rewrite Hbad.
  - cbn [map app style_codes index_of].
    destruct (index_str name STYLES) as [k|]; [|now destruct Hname].
    now rewrite IH.
Qed.

(** [X2] With a named foreground, a named background and a list of style
    names, the code list holds the foreground code (30 plus the index of
    the color, plus 60 when bright), then the background code (40 plus the
    index, plus 60 when bright), then the index of each style in the order
    the styles were given. *)
Theorem construction_orders_codes
    (d f b : string) (i j : nat) (brightfg brightbg : bool)
    (names : list string) (ks : list nat) (h : heap) :
  index_str (PyStr.lower (PyStr.strip None f)) COLORS = Some i ->
  index_str (PyStr.lower (PyStr.strip None b)) COLORS = Some j ->
  Forall2 (fun name k => index_str name STYLES = Some k) names ks ->
  Styled_call str_format (VAtom (AStr d))
    (Atom (AStr f)) brightfg (Atom (AStr b)) brightbg (PyList (map AStr names)) h
  = Ok (Obj d (Some (Text d)) (Some (fresh (dom h))),
        <[fresh (dom h) :=
            AStr (PyStr.of_int (30 + (if brightfg then 60 else 0) + Z.of_nat i))
            :: AStr (PyStr.of_int (40 + (if brightbg then 60 else 0) + Z.of_nat j))
            :: map (fun k => AInt (Z.of_nat k)) ks]> h).
Proof.
  intros Hf Hb Hnames. rewrite Styled_call_text.
  unfold resolved_codes, color_codes.
  destruct (color_code_named f i (BASE_FG + (if brightfg then BASE_BRIGHT_INC else 0)) Hf)
    as [-> ->].
  destruct (color_code_named b j (BASE_BG + (if brightbg then BASE_BRIGHT_INC else 0)) Hb)
    as [-> ->].
  cbn [rbind].
  assert (Hst : (if spec_truthy (PyList (map AStr names))
                 then style_codes (map AStr names) else Ok [])
                = Ok (map (fun k => AInt (Z.of_nat k)) ks)).
  { rewrite <- (style_codes_of_names names ks Hnames).
    destruct names; reflexivity. }
  rewrite Hst. reflexivity.
Qed.

(** [X3] A foreground or background that is false as a condition (the
    integer 0, the empty text, an empty tuple or list, [False], [None])
    is taken as not given, and its bright flag with it: the construction
    is the one without that argument.  The palette color 0 therefore
    yields no code. *)
Theorem falsy_color_is_not_given
    (data : pyval) (fg : spec) (brightfg : bool) (bg : spec) (brightbg : bool)
    (style : spec) (h : heap) :
  (spec_truthy fg = false ->
   Styled_call str_format data fg brightfg bg brightbg style h
   = Styled_call str_format data (Atom ANone) false bg brightbg style h)
  /\ (spec_truthy bg = false ->
      Styled_call str_format data fg brightfg bg brightbg style h
      = Styled_call str_format data fg brightfg (Atom ANone) false style h)
  /\ spec_truthy (Atom (AInt 0)) = false.
Proof.
  assert (Hinit : forall f bf g bg',
             resolved_codes fg brightfg bg brightbg style
             = resolved_codes f bf g bg' style ->
             Styled_call str_format data fg brightfg bg brightbg style h
             = Styled_call str_format data f bf g bg' style h).
  { intros f bf g bg' Heq. unfold Styled_call, bind.
    destruct (__new__ str_format data None h) as [[self h0]|e]; [|reflexivity].
    now rewrite !init_fills_codes, Heq. }
  split; [|split; [|reflexivity]].
  - intros Hfg. apply Hinit. unfold resolved_codes, color_codes. now rewrite Hfg.
  - intros Hbg. apply Hinit. unfold resolved_codes, color_codes. now rewrite Hbg.
Qed.

(** [X4] A style list stops the construction with [ValueError] at the
    first part that is not one of the style names as they are spelled,
    however many valid names come before it; a style that is a non-zero
    integer or [True] stops it with [TypeError]. *)
Theorem unknown_style_part_stops_construction
    (d : string) (valid : list string) (bad : atom) (rest : list atom)
    (n : Z) (h : heap) :
  Forall (fun name => index_str name STYLES <> None) valid ->
  index_of bad STYLES = None ->
  n <> 0 ->
  Styled_call str_format (VAtom (AStr d))
    (Atom ANone) false (Atom ANone) false
    (PyList (map AStr valid ++ bad :: rest)) h = Raise ValueError
  /\ Styled_call str_format (VAtom (AStr d))
       (Atom ANone) false (Atom ANone) false
       (Tuple (map AStr valid ++ bad :: rest)) h = Raise ValueError
  /\ Styled_call str_format (VAtom (AStr d))
       (Atom ANone) false (Atom ANone) false (Atom (AInt n)) h = Raise TypeError
  /\ Styled_call str_format (VAtom (AStr d))
       (Atom ANone) false (Atom ANone) false (Atom (ABool true)) h
     = Raise TypeError.
Proof.
  intros Hvalid Hbad Hn. rewrite !Styled_call_text.
  unfold resolved_codes, color_codes. cbn [spec_truthy truthy rbind].
  pose proof (style_codes_stop valid bad rest Hvalid Hbad) as Hstop.
  assert (Htruthy : match (map AStr valid ++ bad :: rest)%list with
                    | [] => false | _ => true end = true)
    by (destruct valid; reflexivity).
  rewrite Htruthy, Hstop.
  destruct (Z.eqb_spec n 0) as [E|_]; [now destruct Hn|].
  repeat split.
Qed.

(** [X5] A non-empty tuple or list as foreground stops the construction
    with [NameError], whatever the other arguments are, and so does one as
    background when the foreground is not given: an RGB color cannot be
    used. *)
Theorem sequence_color_stops_construction
    (d : string) (item : atom) (items : list atom)
    (brightfg : bool) (bg : spec) (brightbg : bool) (style : spec) (h : heap) :
  Styled_call str_format (VAtom (AStr d))
    (Tuple (item :: items)) brightfg bg brightbg style h = Raise NameError
  /\ Styled_call str_format (VAtom (AStr d))
       (PyList (item :: items)) brightfg bg brightbg style h = Raise NameError
  /\ Styled_call str_format (VAtom (AStr d))
       (Atom ANone) false (Tuple (item :: items)) brightbg style h
     = Raise NameError
  /\ Styled_call str_format (VAtom (AStr d))
       (Atom ANone) false (PyList (item :: items)) brightbg style h
     = Raise NameError.
Proof. rewrite !Styled_call_text. repeat split. Qed.

(** ** Rendering and the heap *)

(** [X6] Rendering, formatting and concatenating read the code lists and
    leave the heap as it was: a value can be rendered again with the same
    result. *)
Theorem rendering_leaves_heap (self : obj) (fs : string) (other : pyval) (h : heap) :
  (forall r h', __str__ str_format self h = Ok (r, h') ->
                h' = h /\ __str__ str_format self h' = Ok (r, h'))
  /\ (forall r h', __format__ str_format self fs h = Ok (r, h') -> h' = h)
  /\ (forall r h', __add__ str_format self other h = Ok (r, h') -> h' = h)
  /\ (forall r h', __radd__ str_format self other h = Ok (r, h') -> h' = h).
Proof.
  split; [|split; [|split]].
  - intros r h' H. pose proof (str_keeps_heap _ _ _ _ _ H) as ->. auto.
  - intros r h' H. exact (format_keeps_heap _ _ _ _ _ _ H).
  - intros r h' H. unfold __add__ in H.
    destruct (is_text other); [|discriminate].
    apply bind_Ok in H as (a & h1 & Ha & H).
    apply bind_Ok in H as (b & h2 & Hb & H).
    injection H as _ <-.
    apply str_keeps_heap in Ha as ->. now apply str_of_keeps_heap in Hb as ->.
  - intros r h' H. unfold __radd__ in H.
    destruct (is_text other); [|discriminate].
    apply bind_Ok in H as (a & h1 & Ha & H).
    apply bind_Ok in H as (b & h2 & Hb & H).
    injection H as _ <-.
    apply str_of_keeps_heap in Ha as ->. now apply str_keeps_heap in Hb as ->.
Qed.

(** ** [copy] and indexing *)

(** [X7] [copy] of a value with text content always returns: the new
    value holds the new content, or the content of the original when no new
    content or the empty text is given, and a new list object with the
    items of the original list.  An item appended to the list of the copy
    is not an item of the original list. *)
Theorem copy_is_independent
    (self : obj) (new_data : option string) (d : string) (l : loc)
    (items : list atom) (h : heap) :
  data_of self = Some (Text d) ->
  codes_of self = Some l ->
  h !! l = Some items ->
  exists new h' l',
    copy str_format self new_data h = Ok (new, h')
    /\ data_of new
       = Some (Text (match new_data with
                     | Some s => if String.eqb s "" then d else s
                     | None => d
                     end))
    /\ codes_of new = Some l' /\ l' <> l /\ h !! l' = None
    /\ h' !! l' = Some items /\ h' !! l = Some items
    /\ forall x, exists h'',
         append l' x h' = Ok (tt, h'')
         /\ h'' !! l' = Some (items ++ [x])%list
         /\ h'' !! l = Some items.
Proof.
  intros Hd Hc Hl.
  set (t := match new_data with
            | Some s => if String.eqb s "" then d else s
            | None => d
            end).
  assert (Hpick : (match new_data with
                   | Some s =>
                       if truthy (AStr s) then ret (VAtom (AStr s))
                       else lift (let? c := getattr (data_of self) in Ok (as_value c))
                   | None => lift (let? c := getattr (data_of self) in Ok (as_value c))
                   end) h = Ok (VAtom (AStr t), h)).
  { subst t. rewrite Hd. destruct new_data as [s|]; [|reflexivity].
    cbn [truthy]. now destruct (String.eqb s ""). }
  unfold copy. rewrite (bind_run _ _ _ _ _ Hpick).
  rewrite (bind_run _ _ _ _ _ (Styled_plain_text t h)).
  rewrite Hc. cbn [getattr].
  set (h1 := <[fresh (dom h) := []]> h).
  assert (Hl1 : h1 !! l = Some items) by now apply alloc_keeps.
  rewrite (bind_run _ _ h1 h1 l) by reflexivity.
  rewrite (bind_run _ _ h1 h1 items (read_run _ _ _ Hl1)).
  rewrite (bind_run _ _ _ _ _ (alloc_run items h1)).
  set (l' := fresh (dom h1)).
  assert (Hne : l' <> l) by exact (fresh_differs h1 l items Hl1).
  eexists _, _, l'. split; [reflexivity|].
  split; [reflexivity|]. split; [reflexivity|]. split; [exact Hne|].
  split; [apply unused_before_alloc|]. split; [apply lookup_insert_eq|].
  split; [now apply alloc_keeps|].
  intros x. unfold append. rewrite lookup_insert_eq. eexists.
  split; [reflexivity|]. split; [apply lookup_insert_eq|].
  rewrite lookup_insert_ne by exact Hne. now apply alloc_keeps.
Qed.

Lemma get_in_range (s : string) (n : nat) :
  (n < String.length s)%nat -> exists c, String.get n s = Some c.
Proof.
  revert n. induction s as [|a s IH]; intros n Hn; simpl in Hn; [lia|].
  destruct n as [|n]; simpl; [eauto|]. apply IH. lia.
Qed.

Lemma get_out_of_range (s : string) (n : nat) :
  (String.length s <= n)%nat -> String.get n s = None.
Proof.
  revert n. induction s as [|a s IH]; intros n Hn; simpl in *; [reflexivity|].
  destruct n as [|n]; [lia|]. apply IH. lia.
Qed.

(** [X8] Indexing a value with text content of length [n] by an integer
    within [-n .. n-1] returns a value of length 1 holding the character
    at that position counted modulo [n], with a new list object holding
    the items of the original list; any other integer raises
    [IndexError]. *)
Theorem indexing_returns_one_character
    (self : obj) (key : Z) (s : string) (l : loc) (items : list atom) (h : heap) :
  data_of self = Some (Text s) ->
  codes_of self = Some l ->
  h !! l = Some items ->
  (- Z.of_nat (String.length s) <= key < Z.of_nat (String.length s) ->
   exists new h' l' c,
     __getitem__ str_format self key h = Ok (new, h')
     /\ String.get (Z.to_nat (key mod Z.of_nat (String.length s))) s = Some c
     /\ data_of new = Some (Text (String c ""))
     /\ __len__ new = Ok 1
     /\ codes_of new = Some l' /\ l' <> l /\ h !! l' = None
     /\ h' !! l' = Some items /\ h' !! l = Some items)
  /\ (key < - Z.of_nat (String.length s) \/ Z.of_nat (String.length s) <= key ->
      __getitem__ str_format self key h = Raise IndexError).
Proof.
  intros Hd Hc Hl. destruct self as [b dd cc].
  cbn [data_of codes_of] in Hd, Hc. subst dd cc.
  set (n := Z.of_nat (String.length s)).
  split.
  - intros Hkey.
    set (j := if key <? 0 then key + n else key).
    assert (Hj : 0 <= j < n) by (subst j; destruct (Z.ltb_spec key 0); lia).
    assert (Hmod : key mod n = j).
    { subst j. destruct (Z.ltb_spec key 0).
      - symmetry. apply (Z.mod_unique key n (-1)); lia.
      - apply Z.mod_small. lia. }
    destruct (get_in_range s (Z.to_nat j)) as [c Hget]; [lia|].
    assert (Hitem : PyStr.item s key = Some (String c "")).
    { unfold PyStr.item. fold n. fold j.
      destruct (Z.leb_spec 0 j); [|lia]. destruct (Z.ltb_spec j n); [|lia].
      cbn [andb]. now rewrite Hget. }
    simpl. rewrite Hitem. unfold bind at 1. cbn [ret].
    rewrite (bind_run _ _ _ _ _ (Styled_plain_text _ h)).
    set (h1 := <[fresh (dom h) := []]> h).
    assert (Hl1 : h1 !! l = Some items) by now apply alloc_keeps.
    rewrite (bind_run _ _ h1 h1 l) by reflexivity.
    rewrite (bind_run _ _ h1 h1 items (read_run _ _ _ Hl1)).
    rewrite (bind_run _ _ _ _ _ (alloc_run items h1)).
    eexists _, _, (fresh (dom h1)), c. split; [reflexivity|].
    split; [now rewrite Hmod|]. split; [reflexivity|]. split; [reflexivity|].
    split; [reflexivity|]. split; [exact (fresh_differs h1 l items Hl1)|].
    split; [apply unused_before_alloc|]. split; [apply lookup_insert_eq|].
    now apply alloc_keeps.
  - intros Hkey.
    assert (Hitem : PyStr.item s key = None).
    { unfold PyStr.item. fold n.
      destruct (Z.ltb_spec key 0).
      - destruct (Z.leb_spec 0 (key + n)); [|reflexivity].
        destruct (Z.ltb_spec (key + n) n); [lia | reflexivity].
      - destruct (Z.leb_spec 0 key); [|lia].
        destruct (Z.ltb_spec key n); [lia | reflexivity]. }
    simpl. rewrite Hitem. reflexivity.
Qed.

(** ** Methods that cannot return *)

Lemma translate_raises (self : obj) :
  forall args h,
    exists e, translate str_format self args h = Raise e
              /\ (e = TypeError \/ e = AttributeError)
              /\ (innermost self <> None -> e = TypeError).
Proof.
  induction self as [b c|b s c|b o c IH] using obj_nesting_ind; intros args h.
  - exists AttributeError. split; [reflexivity|]. split; [auto|].
    intros H. now destruct H.
  - exists TypeError. split; [reflexivity|]. auto.
  - destruct (IH [] h) as (e & He & Hor & Hin). exists e.
    split; [|split; [exact Hor | exact Hin]].
    simpl. unfold bind at 1. unfold bind at 1. now rewrite He.
Qed.

(** [X9] [translate] never returns a value: on every value and with any
    arguments it raises [TypeError], or [AttributeError] when a [data]
    attribute is missing.  [join] never returns a value either: it raises
    whatever rendering raises, and [AttributeError] once the value has been
    rendered. *)
Theorem translate_and_join_always_raise
    (self : obj) (args seq : list pyval) (h : heap) :
  (exists e, translate str_format self args h = Raise e
             /\ (e = TypeError \/ e = AttributeError)
             /\ (innermost self <> None -> e = TypeError))
  /\ (exists e, join str_format self seq h = Raise e
                /\ (forall r h', __str__ str_format self h = Ok (r, h') ->
                                 e = AttributeError)
                /\ (forall e', __str__ str_format self h = Raise e' -> e = e')).
Proof.
  split; [apply translate_raises|].
  unfold join, bind.
  destruct (__str__ str_format self h) as [[r h']|e'].
  - exists AttributeError. split; [reflexivity|]. split; [auto|]. discriminate.
  - exists e'. split; [reflexivity|]. split; [discriminate|]. now intros e'' [= ->].
Qed.

(** ** [removeprefix] *)

(** [X10] [removeprefix] cuts off an ending, not a beginning: on a value
    with content [s] and for the text [x], given as plain text or as a
    value with that content, it returns a value bound to the same code
    list whose content is [s] without its ending [x] when [x] is not empty
    and ends [s], and [s] itself otherwise. *)
Theorem removeprefix_cuts_the_ending
    (self arg : obj) (s x : string) (l : loc) (h : heap) :
  data_of self = Some (Text s) ->
  codes_of self = Some l ->
  data_of arg = Some (Text x) ->
  exists r,
    removeprefix str_format self (VAtom (AStr x)) h
    = Ok (Obj r (Some (Text r)) (Some l), <[fresh (dom h) := []]> h)
    /\ removeprefix str_format self (VStyled arg) h
       = Ok (Obj r (Some (Text r)) (Some l), <[fresh (dom h) := []]> h)
    /\ ((x <> "" /\ s = r ++ x) \/ ((x = "" \/ ~ exists p, s = p ++ x) /\ r = s)).
Proof.
  intros Hd Hc Hx. destruct self as [b dd cc].
  cbn [data_of codes_of] in Hd, Hc. subst dd cc.
  exists (PyText.removesuffix s x).
  split; [exact (call_on_text (CallRemoveprefix x) b s l h)|].
  split.
  - unfold removeprefix. cbn [unwrap data_of codes_of getattr]. rewrite Hx.
    rewrite (bind_run _ _ h h (VAtom (AStr x))) by reflexivity.
    rewrite (bind_run _ _ h h (Text s)) by reflexivity.
    rewrite (bind_run _ _ h h (PyText.removesuffix s x)) by reflexivity.
    rewrite (bind_run _ _ _ _ _ (Styled_plain_text _ h)).
    reflexivity.
  - destruct (removesuffix_spec s x) as [(Hne & p & Hs & Hr)|[Hno Hr]].
    + left. split; [exact Hne|]. now rewrite Hr.
    + right. auto.
Qed.

(** ** Containment *)

(** [X11] Containment looks at the content only: for a value with content
    [s] and an operand with content [t], given as plain text or as a value
    with any style, [operand in value] holds exactly when [t] occurs in
    [s]; an operand that is not text raises [TypeError]. *)
Theorem contains_tests_the_content
    (self operand : obj) (s t : string) :
  data_of self = Some (Text s) ->
  data_of operand = Some (Text t) ->
  __contains__ self (VStyled operand) = Ok (PyText.contains t s)
  /\ __contains__ self (VAtom (AStr t)) = Ok (PyText.contains t s)
  /\ (PyText.contains t s = true <-> exists u w, s = u ++ t ++ w)
  /\ (forall x, (forall u, x <> AStr u) ->
        __contains__ self (VAtom x) = Raise TypeError).
Proof.
  intros Hs Ht. unfold __contains__. cbn [unwrap]. rewrite Hs, Ht.
  split; [reflexivity|]. split; [reflexivity|]. split; [apply contains_spec|].
  intros x Hx. destruct x as [| | |u]; try reflexivity. now destruct (Hx u).
Qed.

(** ** Values built on values *)

Lemma eq_text_innermost (o : obj) :
  forall s t, innermost o = Some s -> eq_text (Nested o) t = Ok (String.eqb s t).
Proof.
  induction o as [b c|b s' c|b o' c IH] using obj_nesting_ind;
    intros s t H; simpl in H.
  - discriminate.
  - injection H as ->. reflexivity.
  - exact (IH s t H).
Qed.

Lemma cmp_text_innermost (op : PyStr.cmpop) (o : obj) :
  forall s t, innermost o = Some s ->
              cmp_text op (Nested o) t = Ok (PyStr.compare_with op s t).
Proof.
  induction o as [b c|b s' c|b o' c IH] using obj_nesting_ind;
    intros s t H; simpl in H.
  - discriminate.
  - injection H as ->. reflexivity.
  - exact (IH s t H).
Qed.

Lemma hash_innermost (o : obj) :
  forall s, innermost o = Some s ->
            hash_content str_hash (Nested o) = Ok (str_hash s).
Proof.
  induction o as [b c|b s' c|b o' c IH] using obj_nesting_ind;
    intros s H; simpl in H.
  - discriminate.
  - injection H as ->. reflexivity.
  - exact (IH s H).
Qed.

Lemma len_innermost (o : obj) :
  forall s, innermost o = Some s ->
            len_content (Nested o) = Ok (Z.of_nat (String.length s)).
Proof.
  induction o as [b c|b s' c|b o' c IH] using obj_nesting_ind;
    intros s H; simpl in H.
  - discriminate.
  - injection H as ->. reflexivity.
  - exact (IH s H).
Qed.

Lemma eqb_sym (s t : string) : String.eqb s t = String.eqb t s.
Proof.
  destruct (String.eqb_spec s t) as [->|Hne].
  - now rewrite String.eqb_refl.
  - symmetry. apply String.eqb_neq. congruence.
Qed.

Lemma eq_content_innermost (a : obj) :
  forall b sa sb,
    innermost a = Some sa -> innermost b = Some sb ->
    eq_content (Nested a) (Nested b) = Ok (String.eqb sa sb).
Proof.
  induction a as [ba ca|ba s ca|ba a' ca IH] using obj_nesting_ind;
    intros b sa sb Ha Hb; simpl in Ha.
  - discriminate.
  - injection Ha as ->. destruct b as [bb [[t|b']|] cb]; simpl in Hb.
    + injection Hb as ->. reflexivity.
    + pose proof (eq_text_innermost b' sb sa Hb) as E.
      destruct b' as [b3 [c3|] l3]; [|discriminate Hb].
      cbn [eq_content eq_text getattr rbind] in E |- *.
      rewrite E. now rewrite eqb_sym.
    + discriminate.
  - destruct b as [bb [[t|b']|] cb]; simpl in Hb.
    + injection Hb as ->. exact (eq_text_innermost a' sa sb Ha).
    + exact (IH b' sa sb Ha Hb).
    + discriminate.
Qed.

Lemma lt_content_innermost (a : obj) :
  forall b sa sb,
    innermost a = Some sa -> innermost b = Some sb ->
    cmp_content PyStr.OpLt (Nested a) (Nested b) = Ok (String.ltb sa sb).
Proof.
  induction a as [ba ca|ba s ca|ba a' ca IH] using obj_nesting_ind;
    intros b sa sb Ha Hb; simpl in Ha.
  - discriminate.
  - injection Ha as ->. destruct b as [bb [[t|b']|] cb]; simpl in Hb.
    + injection Hb as ->. reflexivity.
    + pose proof (cmp_text_innermost PyStr.OpGt b' sb sa Hb) as E.
      destruct b' as [b3 [c3|] l3]; [|discriminate Hb].
      cbn [cmp_content cmp_text getattr rbind PyStr.reflected] in E |- *.
      now rewrite E.
    + discriminate.
  - destruct b as [bb [[t|b']|] cb]; simpl in Hb.
    + injection Hb as ->. exact (cmp_text_innermost PyStr.OpLt a' sa sb Ha).
    + exact (IH b' sa sb Ha Hb).
    + discriminate.
Qed.

Lemma Styled_call_data (data : pyval)
    (fg : spec) (brightfg : bool) (bg : spec) (brightbg : bool) (style : spec)
    (h h' : heap) (new : obj) :
  Styled_call str_format data fg brightfg bg brightbg style h = Ok (new, h') ->
  data_of new = Some (content_for data).
Proof.
  unfold Styled_call. intros H.
  apply bind_Ok in H as (self & h0 & _ & H).
  rewrite init_fills_codes in H.
  destruct (resolved_codes fg brightfg bg brightbg style); [|discriminate].
  injection H as <- _. now destruct self.
Qed.

(** [X12] Equality, hash, length and the order [<] look through values
    built on values: for a value whose innermost text is [sa] they return
    what they return for [sa], against plain text and against a value whose
    innermost text is [sb], at any depth and under any styles; and a value
    constructed from a value has the innermost text of that value. *)
Theorem content_operations_see_innermost_text
    (a b : obj) (sa sb : string) :
  innermost a = Some sa ->
  innermost b = Some sb ->
  (__eq__ a (VStyled b) = Ok (String.eqb sa sb)
   /\ __lt__ a (VStyled b) = Ok (String.ltb sa sb)
   /\ __hash__ str_hash a = Ok (str_hash sa)
   /\ __len__ a = Ok (Z.of_nat (String.length sa)))
  /\ (forall t,
        __eq__ a (VAtom (AStr t)) = Ok (String.eqb sa t)
        /\ __lt__ a (VAtom (AStr t)) = Ok (String.ltb sa t)
        /\ __le__ a (VAtom (AStr t)) = Ok (String.leb sa t)
        /\ __gt__ a (VAtom (AStr t)) = Ok (String.ltb t sa)
        /\ __ge__ a (VAtom (AStr t)) = Ok (String.leb t sa))
  /\ (forall fg brightfg bg brightbg style h new h',
        Styled_call str_format (VStyled a) fg brightfg bg brightbg style h
        = Ok (new, h') ->
        innermost new = Some sa).
Proof.
  intros Ha Hb.
  pose proof (eq_content_innermost a b sa sb Ha Hb) as Heq.
  pose proof (lt_content_innermost a b sa sb Ha Hb) as Hlt.
  pose proof (hash_innermost a sa Ha) as Hhash.
  pose proof (len_innermost a sa Ha) as Hlen.
  pose proof (eq_text_innermost a sa) as Het.
  pose proof (fun op => cmp_text_innermost op a sa) as Hct.
  destruct a as [ba [ca|] la]; [|discriminate Ha].
  destruct b as [bb [cb|] lb]; [|discriminate Hb].
  split; [|split].
  - split; [exact Heq|]. split; [exact Hlt|]. split; [exact Hhash | exact Hlen].
  - intros t. split; [exact (Het t Ha)|].
    split; [exact (Hct PyStr.OpLt t Ha)|]. split; [exact (Hct PyStr.OpLe t Ha)|].
    split; [exact (Hct PyStr.OpGt t Ha) | exact (Hct PyStr.OpGe t Ha)].
  - intros fg brightfg bg brightbg style h new h' H.
    apply Styled_call_data in H. destruct new as [bn dn cn].
    cbn [data_of content_for] in H. subst dn. exact Ha.
Qed.

(** ** Pickles *)


(** [X14] An instance that [__new__] returns has no [data] attribute,
    whatever [codes] it was given: rendering it, pickling it, hashing it
    and comparing it with text raise [AttributeError]. *)
Theorem new_alone_binds_no_data
    (data : pyval) (codes : option loc) (h h' : heap) (inst : obj) :
  __new__ str_format data codes h = Ok (inst, h') ->
  data_of inst = None
  /\ __str__ str_format inst h' = Raise AttributeError
  /\ dumps inst h' = Raise AttributeError
  /\ __getnewargs__ inst = Raise AttributeError
  /\ __hash__ str_hash inst = Raise AttributeError
  /\ forall t, __eq__ inst (VAtom (AStr t)) = Raise AttributeError.
Proof.
  unfold __new__. intros H.
  apply bind_Ok in H as (base & h0 & _ & H).
  assert (Hcases : inst = Obj base None None
                   \/ exists l items, inst = Obj base None (Some l)
                                      /\ h' !! l = Some items).
  { destruct codes as [l|]; [|left; now injection H as <- _].
    apply bind_Ok in H as (items & h1 & Hr & H).
    apply read_Ok in Hr as [_ ->].
    destruct items as [|c cs]; [left; now injection H as <- _|].
    rewrite (bind_run _ _ _ _ _ (alloc_run (c :: cs) h0)) in H.
    injection H as <- <-. right. eexists _, _.
    split; [reflexivity | apply lookup_insert_eq]. }
  destruct Hcases as [-> | (l & items & -> & Hl)].
  - repeat split.
  - split; [reflexivity|]. split; [|repeat split].
    unfold __str__. cbn [codes_of data_of getattr].
    rewrite (bind_run _ _ h' h' l) by reflexivity.
    now rewrite (bind_run _ _ h' h' items (read_run _ _ _ Hl)).
Qed.

(** [X16] A value constructed from a styled value renders the given
    value through [__format__]: given a value with exactly one code, the
    rendering is the rendering of the given value inside an escape
    sequence; given a value without code, the new value is constructed but
    rendering it raises [IndexError]; given a value with two codes or more,
    the content does not appear in the rendering. *)
Theorem value_built_on_value_renders_through_format
    (given : obj) (d out : string) (l : loc) (cs : list atom) (h : heap) :
  data_of given = Some (Text d) ->
  codes_of given = Some l ->
  h !! l = Some cs ->
  str_format d "" = Ok out ->
  exists new h',
    Styled_plain str_format (VStyled given) h = Ok (new, h')
    /\ data_of new = Some (Nested given)
    /\ (cs = [] -> __str__ str_format new h' = Raise IndexError)
    /\ (forall c, cs = [c] ->
          __str__ str_format new h' = Ok (framed [] (framed [c] out), h'))
    /\ (forall c1 c2 rest, cs = c1 :: c2 :: rest ->
          __str__ str_format new h'
          = Ok (framed [] (ESC ++ "[" ++ py_str c1 ++ "m" ++ py_str c2
                               ++ ESC ++ "[0m"), h')).
Proof.
  intros Hd Hc Hl Hout.
  pose proof (str_run str_format given h l cs d Hc Hl Hd) as Hgiven.
  set (h' := <[fresh (dom h) := []]> h).
  assert (Hl' : h' !! l = Some cs) by now apply alloc_keeps.
  assert (Hnew : Styled_plain str_format (VStyled given) h
                 = Ok (Obj (framed cs d) (Some (Nested given)) (Some (fresh (dom h))),
                       h')).
  { unfold Styled_plain, Styled_call.
    rewrite (bind_run _ _ h h (Obj (framed cs d) None None)).
    - now rewrite init_fills_codes.
    - unfold __new__. cbn [str_of].
      now rewrite (bind_run _ _ h h _ Hgiven). }
  eexists _, h'. split; [exact Hnew|]. split; [reflexivity|].
  assert (Hstr : __str__ str_format
                   (Obj (framed cs d) (Some (Nested given)) (Some (fresh (dom h)))) h'
                 = match format_fields TEMPLATE (map py_str cs ++ [out])%list with
                   | Ok inner => Ok (framed [] inner, h')
                   | Raise e => Raise e
                   end).
  { unfold __str__. cbn [codes_of data_of getattr].
    rewrite (bind_run _ _ h' h' (fresh (dom h))) by reflexivity.
    rewrite (bind_run _ _ h' h' [] (read_run _ _ _ (lookup_insert_eq _ _ _))).
    unfold bind at 1.
    rewrite (format_run str_format given h' l cs d "" out Hc Hl' Hd Hout).
    unfold lift at 1.
    destruct (format_fields TEMPLATE (map py_str cs ++ [out])%list); reflexivity. }
  rewrite Hstr. split; [|split].
  - intros ->. reflexivity.
  - intros c ->. unfold framed at 3.
    cbn [semicolon_separated fold_right]. rewrite append_empty_r. reflexivity.
  - intros c1 c2 rest ->. reflexivity.
Qed.

(** [X15] The constructor called on the pair of [__getnewargs__] does not
    rebuild the value: a non-empty code list arrives as the foreground
    specification and stops the construction with [NameError]; an empty
    one yields an unstyled value. *)
Theorem constructor_on_pair_does_not_rebuild
    (s : string) (l : loc) (cs : list atom) (h : heap) :
  h !! l = Some cs ->
  (cs <> [] -> Styled_from_pair str_format (VAtom (AStr s)) l h = Raise NameError)
  /\ (cs = [] ->
      Styled_from_pair str_format (VAtom (AStr s)) l h
      = Ok (Obj s (Some (Text s)) (Some (fresh (dom h))), <[fresh (dom h) := []]> h)).
Proof.
  intros Hl. split.
  - intros Hne. destruct cs as [|c cs']; [now destruct Hne|].
    exact (constructor_on_pair_raises str_format s l c cs' h Hl).
  - intros ->.
    assert (Hnew : __new__ str_format (VAtom (AStr s)) (Some l) h
                   = Ok (Obj s None None, h)).
    { unfold __new__. cbn [str_of py_str].
      rewrite (bind_run _ _ h h s) by reflexivity.
      now rewrite (bind_run _ _ h h [] (read_run _ _ _ Hl)). }
    unfold Styled_from_pair. rewrite (bind_run _ _ _ _ _ Hnew).
    rewrite (bind_run _ _ h h [] (read_run _ _ _ Hl)).
    now rewrite init_fills_codes.
Qed.

(** ** Numbers *)


(** ** The pickle determines the value *)

(** [X18] Pickling reads the heap and leaves it as it was, and what a
    value pickles to determines how it compares, renders and formats: two
    values with the same pickle, in whatever heaps, are equal and return
    the same text, or raise the same exception, when rendered and when
    formatted. *)
Theorem same_pickle_same_rendering
    (v w : obj) (hv hv' hw hw' : heap) (p : pickled) (fs : string) :
  dumps v hv = Ok (p, hv') ->
  dumps w hw = Ok (p, hw') ->
  hv' = hv /\ hw' = hw
  /\ __eq__ v (VStyled w) = Ok true
  /\ outcome (__str__ str_format v hv) = outcome (__str__ str_format w hw)
  /\ outcome (__format__ str_format v fs hv)
     = outcome (__format__ str_format w fs hw).
Proof.
  intros Hv Hw.
  pose proof (dumps_keeps_heap _ _ _ _ Hv) as ->.
  pose proof (dumps_keeps_heap _ _ _ _ Hw) as ->.
  split; [reflexivity|]. split; [reflexivity|].
  split; [exact (same_pickle_eq v w p hw hv Hv Hw)|].
  rewrite (str_of_pickle str_format v hv p Hv), (str_of_pickle str_format w hw p Hw).
  rewrite (format_of_pickle str_format v hv p fs Hv),
    (format_of_pickle str_format w hw p fs Hw).
  unfold lift, outcome.
  destruct (render_pickled str_format p), (format_pickled str_format p fs);
    split; reflexivity.
Qed.

End Further.


(** ** Runs for the further properties *)


(** [Styled('hi', fg=' Red ', brightfg=True, bg='blue',
    style=['bold', 'blink'])] *)
Lemma construction_orders_codes_witness :
  index_str (PyStr.lower (PyStr.strip None " Red ")) COLORS = Some 1%nat
  /\ index_str (PyStr.lower (PyStr.strip None "blue")) COLORS = Some 4%nat
  /\ Forall2 (fun name k => index_str name STYLES = Some k)
       ["bold"; "blink"] [1%nat; 5%nat]
  /\ Styled_call Sample.format (Demo.text "hi")
       (Atom (AStr " Red ")) true (Atom (AStr "blue")) false
       (PyList [AStr "bold"; AStr "blink"]) ∅
     = Ok (Obj "hi" (Some (Text "hi")) (Some (fresh (dom (∅ : heap)))),
           <[fresh (dom (∅ : heap)) := [AStr "91"; AStr "44"; AInt 1; AInt 5]]> ∅).
Proof.
  assert (HS : Forall2 (fun name k => index_str name STYLES = Some k)
                 ["bold"; "blink"] [1%nat; 5%nat])
    by (constructor; [reflexivity | constructor; [reflexivity | constructor]]).
  split; [reflexivity | split; [reflexivity | split; [exact HS |]]].
  exact (construction_orders_codes Sample.format "hi" " Red " "blue"
           1%nat 4%nat true false ["bold"; "blink"] [1%nat; 5%nat] ∅
           eq_refl eq_refl HS).
Defined.

(** [Styled('hi', fg=0, brightfg=True)] is [Styled('hi')]. *)
Lemma falsy_color_is_not_given_witness :
  spec_truthy (Atom (AInt 0)) = false
  /\ Styled_call Sample.format (Demo.text "hi")
       (Atom (AInt 0)) true Demo.none false Demo.none ∅
     = Styled_call Sample.format (Demo.text "hi")
         (Atom ANone) false Demo.none false Demo.none ∅.
Proof.
  split; [reflexivity |].
  exact (proj1 (falsy_color_is_not_given Sample.format (Demo.text "hi")
                  (Atom (AInt 0)) true Demo.none false Demo.none ∅) eq_refl).
Defined.

(** [Styled('hi', style=['bold', 'Bold', 'blink'])] and
    [Styled('hi', style=1)] *)
Lemma unknown_style_part_stops_construction_witness :
  Forall (fun name => index_str name STYLES <> None) ["bold"]
  /\ index_of (AStr "Bold") STYLES = None
  /\ 1 <> 0
  /\ Styled_call Sample.format (Demo.text "hi") Demo.none false Demo.none false
       (PyList [AStr "bold"; AStr "Bold"; AStr "blink"]) ∅ = Raise ValueError
  /\ Styled_call Sample.format (Demo.text "hi") Demo.none false Demo.none false
       (Atom (AInt 1)) ∅ = Raise TypeError.
Proof.
  assert (HV : Forall (fun name => index_str name STYLES <> None) ["bold"])
    by (constructor; [discriminate | constructor]).
  assert (HN : 1 <> 0) by discriminate.
  split; [exact HV | split; [reflexivity | split; [exact HN |]]].
  destruct (unknown_style_part_stops_construction Sample.format "hi"
              ["bold"] (AStr "Bold") [AStr "blink"] 1 ∅ HV eq_refl HN)
    as (Hl & _ & Hi & _).
  split; [exact Hl | exact Hi].
Defined.

(** Rendering [Styled('hi', fg='red')] twice. *)
Lemma rendering_leaves_heap_witness :
  __str__ Sample.format Demo.red_hi Demo.red_heap
  = Ok (framed [AStr "31"] "hi", Demo.red_heap)
  /\ Demo.red_heap = Demo.red_heap
  /\ __str__ Sample.format Demo.red_hi Demo.red_heap
     = Ok (framed [AStr "31"] "hi", Demo.red_heap).
Proof.
  split; [reflexivity |].
  exact (proj1 (rendering_leaves_heap Sample.format Demo.red_hi ""
                  (Demo.text "!") Demo.red_heap)
           (framed [AStr "31"] "hi") Demo.red_heap eq_refl).
Defined.

(** [Styled('hi', fg='red').copy('yo')] *)
Lemma copy_is_independent_witness :
  data_of Demo.red_hi = Some (Text "hi")
  /\ codes_of Demo.red_hi = Some 0%nat
  /\ Demo.red_heap !! 0%nat = Some [AStr "31"]
  /\ exists new h' l',
       copy Sample.format Demo.red_hi (Some "yo") Demo.red_heap = Ok (new, h')
       /\ data_of new = Some (Text "yo")
       /\ codes_of new = Some l' /\ l' <> 0%nat
       /\ h' !! l' = Some [AStr "31"] /\ h' !! 0%nat = Some [AStr "31"]
       /\ exists h'',
            append l' (AInt 1) h' = Ok (tt, h'')
            /\ h'' !! l' = Some [AStr "31"; AInt 1]
            /\ h'' !! 0%nat = Some [AStr "31"].
Proof.
  split; [reflexivity | split; [reflexivity | split; [reflexivity |]]].
  destruct (copy_is_independent Sample.format Demo.red_hi (Some "yo") "hi"
              0%nat [AStr "31"] Demo.red_heap eq_refl eq_refl eq_refl)
    as (new & h' & l' & Hrun & Hd & Hc & Hne & _ & Hl' & Hl & Happ).
  exists new, h', l'.
  split; [exact Hrun | split; [exact Hd | split; [exact Hc | split; [exact Hne |
    split; [exact Hl' | split; [exact Hl | exact (Happ (AInt 1))]]]]]].
Defined.

(** [Styled('hi', fg='red')[-1]] and [Styled('hi', fg='red')[2]] *)
Lemma indexing_returns_one_character_witness :
  data_of Demo.red_hi = Some (Text "hi")
  /\ codes_of Demo.red_hi = Some 0%nat
  /\ Demo.red_heap !! 0%nat = Some [AStr "31"]
  /\ - Z.of_nat (String.length "hi") <= -1 < Z.of_nat (String.length "hi")
  /\ (exists new h' l',
        __getitem__ Sample.format Demo.red_hi (-1) Demo.red_heap = Ok (new, h')
        /\ data_of new = Some (Text "i")
        /\ codes_of new = Some l' /\ l' <> 0%nat
        /\ h' !! l' = Some [AStr "31"])
  /\ __getitem__ Sample.format Demo.red_hi 2 Demo.red_heap = Raise IndexError.
Proof.
  assert (HR : - Z.of_nat (String.length "hi") <= -1 < Z.of_nat (String.length "hi"))
    by (split; [discriminate | reflexivity]).
  split; [reflexivity | split; [reflexivity | split; [reflexivity |
    split; [exact HR |]]]].
  split.
  - destruct (proj1 (indexing_returns_one_character Sample.format Demo.red_hi
                       (-1) "hi" 0%nat [AStr "31"] Demo.red_heap
                       eq_refl eq_refl eq_refl) HR)
      as (new & h' & l' & c & Hrun & Hget & Hd & _ & Hc & Hne & _ & Hl' & _).
    exists new, h', l'.
    split; [exact Hrun |].
    split; [| split; [exact Hc | split; [exact Hne | exact Hl']]].
    rewrite Hd. injection Hget as <-. reflexivity.
  - apply (proj2 (indexing_returns_one_character Sample.format Demo.red_hi
                    2 "hi" 0%nat [AStr "31"] Demo.red_heap
                    eq_refl eq_refl eq_refl)).
    right. discriminate.
Defined.

(** [Styled('hi', fg='red').translate({})] *)
Lemma translate_and_join_always_raise_witness :
  innermost Demo.red_hi <> None
  /\ translate Sample.format Demo.red_hi [] Demo.red_heap = Raise TypeError
  /\ join Sample.format Demo.red_hi [Demo.text "a"; Demo.text "b"] Demo.red_heap
     = Raise AttributeError.
Proof.
  assert (HI : innermost Demo.red_hi <> None) by discriminate.
  split; [exact HI |].
  destruct (translate_and_join_always_raise Sample.format Demo.red_hi []
              [Demo.text "a"; Demo.text "b"] Demo.red_heap)
    as ((e & He & _ & Ht) & _).
  destruct (translate_and_join_always_raise Sample.format Demo.red_hi []
              [Demo.text "a"; Demo.text "b"] Demo.red_heap)
    as (_ & (e' & He' & Hok & _)).
  split.
  - rewrite He. f_equal. exact (Ht HI).
  - rewrite He'. f_equal.
    exact (Hok (framed [AStr "31"] "hi") Demo.red_heap eq_refl).
Defined.

(** [Styled('hello', fg='red').removeprefix('lo')] *)
Lemma removeprefix_cuts_the_ending_witness :
  data_of (Obj "hello" (Some (Text "hello")) (Some 0%nat)) = Some (Text "hello")
  /\ codes_of (Obj "hello" (Some (Text "hello")) (Some 0%nat)) = Some 0%nat
  /\ data_of (Obj "lo" (Some (Text "lo")) (Some 0%nat)) = Some (Text "lo")
  /\ exists r,
       removeprefix Sample.format (Obj "hello" (Some (Text "hello")) (Some 0%nat))
         (VAtom (AStr "lo")) Demo.red_heap
       = Ok (Obj r (Some (Text r)) (Some 0%nat),
             <[fresh (dom Demo.red_heap) := []]> Demo.red_heap)
       /\ removeprefix Sample.format (Obj "hello" (Some (Text "hello")) (Some 0%nat))
            (VStyled (Obj "lo" (Some (Text "lo")) (Some 0%nat))) Demo.red_heap
          = Ok (Obj r (Some (Text r)) (Some 0%nat),
                <[fresh (dom Demo.red_heap) := []]> Demo.red_heap)
       /\ (("lo" <> "" /\ "hello" = r ++ "lo")
           \/ (("lo" = "" \/ ~ exists p, "hello" = p ++ "lo") /\ r = "hello")).
Proof.
  split; [reflexivity | split; [reflexivity | split; [reflexivity |]]].
  exact (removeprefix_cuts_the_ending Sample.format
           (Obj "hello" (Some (Text "hello")) (Some 0%nat))
           (Obj "lo" (Some (Text "lo")) (Some 0%nat))
           "hello" "lo" 0%nat Demo.red_heap eq_refl eq_refl eq_refl).
Defined.

(** ['i' in Styled('hi', fg='red')] and [1 in Styled('hi', fg='red')] *)
Lemma contains_tests_the_content_witness :
  data_of Demo.red_hi = Some (Text "hi")
  /\ data_of (Obj "i" (Some (Text "i")) (Some 1%nat)) = Some (Text "i")
  /\ __contains__ Demo.red_hi (VStyled (Obj "i" (Some (Text "i")) (Some 1%nat)))
     = Ok true
  /\ __contains__ Demo.red_hi (VAtom (AStr "i")) = Ok true
  /\ __contains__ Demo.red_hi (VAtom (AInt 1)) = Raise TypeError.
Proof.
  split; [reflexivity | split; [reflexivity |]].
  destruct (contains_tests_the_content Demo.red_hi
              (Obj "i" (Some (Text "i")) (Some 1%nat)) "hi" "i" eq_refl eq_refl)
    as (Hv & Ht & _ & Hx).
  split; [exact Hv | split; [exact Ht |]].
  apply Hx. intros u. discriminate.
Defined.

(** [Styled(Styled('hi', fg='red'))] against [Styled('hi', fg='red')] and
    against text. *)
Lemma content_operations_see_innermost_text_witness :
  innermost Runs.wrapped = Some "hi"
  /\ innermost Demo.red_hi = Some "hi"
  /\ __eq__ Runs.wrapped (VStyled Demo.red_hi) = Ok true
  /\ __hash__ Sample.hash Runs.wrapped = Ok (Sample.hash "hi")
  /\ __len__ Runs.wrapped = Ok 2
  /\ __lt__ Runs.wrapped (VAtom (AStr "ho")) = Ok true.
Proof.
  split; [reflexivity | split; [reflexivity |]].
  destruct (content_operations_see_innermost_text Sample.format Sample.hash
              Runs.wrapped Demo.red_hi "hi" "hi" eq_refl eq_refl)
    as ((He & _ & Hh & Hl) & Ht & _).
  split; [exact He | split; [exact Hh | split; [exact Hl |]]].
  exact (proj1 (proj2 (Ht "ho"))).
Defined.


(** [Styled.__new__(Styled, 'hi')] *)
Lemma new_alone_binds_no_data_witness :
  __new__ Sample.format (Demo.text "hi") None ∅ = Ok (Obj "hi" None None, ∅)
  /\ __str__ Sample.format (Obj "hi" None None) ∅ = Raise AttributeError
  /\ __hash__ Sample.hash (Obj "hi" None None) = Raise AttributeError.
Proof.
  split; [reflexivity |].
  destruct (new_alone_binds_no_data Sample.format Sample.hash (Demo.text "hi")
              None ∅ ∅ (Obj "hi" None None) eq_refl)
    as (_ & Hs & _ & _ & Hh & _).
  split; [exact Hs | exact Hh].
Defined.

(** The constructor on the pair that
    [Styled('pickle me!', fg='cyan', bg='white').__getnewargs__()] returns. *)
Lemma constructor_on_pair_does_not_rebuild_witness :
  Pickles.pickle_heap !! 0%nat = Some [AStr "36"; AStr "47"]
  /\ [AStr "36"; AStr "47"] <> []
  /\ Styled_from_pair Sample.format (Demo.text "pickle me!") 0%nat Pickles.pickle_heap
     = Raise NameError.
Proof.
  assert (HN : [AStr "36"; AStr "47"] <> []) by discriminate.
  split; [reflexivity | split; [exact HN |]].
  exact (proj1 (constructor_on_pair_does_not_rebuild Sample.format "pickle me!"
                  0%nat [AStr "36"; AStr "47"] Pickles.pickle_heap eq_refl) HN).
Defined.

(** [Styled(Styled('hi', fg='red'))] *)
Lemma value_built_on_value_renders_through_format_witness :
  data_of Demo.red_hi = Some (Text "hi")
  /\ codes_of Demo.red_hi = Some 0%nat
  /\ Demo.red_heap !! 0%nat = Some [AStr "31"]
  /\ Sample.format "hi" "" = Ok "hi"
  /\ exists new h',
       Styled_plain Sample.format (VStyled Demo.red_hi) Demo.red_heap = Ok (new, h')
       /\ data_of new = Some (Nested Demo.red_hi)
       /\ __str__ Sample.format new h'
          = Ok (framed [] (framed [AStr "31"] "hi"), h').
Proof.
  split; [reflexivity | split; [reflexivity | split; [reflexivity |
    split; [reflexivity |]]]].
  destruct (value_built_on_value_renders_through_format Sample.format
              Demo.red_hi "hi" "hi" 0%nat [AStr "31"] Demo.red_heap
              eq_refl eq_refl eq_refl eq_refl)
    as (new & h' & Hrun & Hd & _ & Hone & _).
  exists new, h'.
  split; [exact Hrun | split; [exact Hd | exact (Hone (AStr "31") eq_refl)]].
Defined.


(** [Styled('pickle me!', fg='cyan', bg='white')] held in two heaps. *)
Lemma same_pickle_same_rendering_witness :
  dumps Pickles.pickle_me Pickles.pickle_heap
  = Ok (Pickled (PText "pickle me!") [AStr "36"; AStr "47"], Pickles.pickle_heap)
  /\ dumps (Obj "pickle me!" (Some (Text "pickle me!")) (Some 3%nat))
       {[ 3%nat := [AStr "36"; AStr "47"] ]}
     = Ok (Pickled (PText "pickle me!") [AStr "36"; AStr "47"],
           {[ 3%nat := [AStr "36"; AStr "47"] ]})
  /\ __eq__ Pickles.pickle_me
       (VStyled (Obj "pickle me!" (Some (Text "pickle me!")) (Some 3%nat)))
     = Ok true
  /\ outcome (__str__ Sample.format Pickles.pickle_me Pickles.pickle_heap)
     = outcome (__str__ Sample.format
                  (Obj "pickle me!" (Some (Text "pickle me!")) (Some 3%nat))
                  {[ 3%nat := [AStr "36"; AStr "47"] ]}).
Proof.
  assert (HV : dumps Pickles.pickle_me Pickles.pickle_heap
               = Ok (Pickled (PText "pickle me!") [AStr "36"; AStr "47"],
                     Pickles.pickle_heap)) by (vm_compute; reflexivity).
  assert (HW : dumps (Obj "pickle me!" (Some (Text "pickle me!")) (Some 3%nat))
                 {[ 3%nat := [AStr "36"; AStr "47"] ]}
               = Ok (Pickled (PText "pickle me!") [AStr "36"; AStr "47"],
                     {[ 3%nat := [AStr "36"; AStr "47"] ]}))
    by (vm_compute; reflexivity).
  split; [exact HV | split; [exact HW |]].
  destruct (same_pickle_same_rendering Sample.format _ _ _ _ _ _ _ "" HV HW)
    as (_ & _ & He & Hs & _).
  split; [exact He | exact Hs].
Defined.
